(** * Risk-decision engine of the rug analyzer: EV engine, bankroll manager,
      regime detector and threshold tuner.

    Shallow embedding of
      - apps/analyzer/strategy/bankroll.py  (BankrollManager)
      - apps/analyzer/strategy/ev.py        (EVEngine)
      - apps/analyzer/regime.py             (RegimeDetector.detect_regime)
      - apps/analyzer/tune_thresholds.py    (ThresholdTuner.find_pareto_optimal)

    Numbers: Python floats are read as exact rationals ([Q], compared with
    [==]); Python ints are [Z].  A pandas cell that is NaN is [None].
    A Python exception is [None] in an [option] result.  An integer id read
    out of a DataFrame row is a float64: [Py.float64_of_int]. *)

From Stdlib Require Import QArith Qminmax ZArith List Bool Lia Lqa String.
From Stdlib Require Import Sorted Permutation.
Import ListNotations.
Open Scope Q_scope.

(** ** Python and numpy primitives *)

Module Py.

(** [a < b] on floats. *)
Definition ltb (a b : Q) : bool := negb (Qle_bool b a).

(** [a <= b] on floats. *)
Definition leb (a b : Q) : bool := Qle_bool a b.

(** Builtin [max(a, b)]: the first argument is kept unless the second is
    strictly larger. *)
Definition max (a b : Q) : Q := if ltb a b then b else a.

(** Builtin [min(a, b)]: the first argument is kept unless the second is
    strictly smaller. *)
Definition min (a b : Q) : Q := if ltb b a then b else a.

(** Builtin [abs]. *)
Definition abs (a : Q) : Q := if ltb a 0 then - a else a.

(** Float division [a / b]; a zero divisor raises ZeroDivisionError. *)
Definition div (a b : Q) : option Q :=
  if Qeq_bool b 0 then None else Some (a / b).

(** [np.clip(p, lo, hi)] is [np.minimum(np.maximum(p, lo), hi)]. *)
Definition clip (p lo hi : Q) : Q := min (max p lo) hi.

(** [l.sort(key=key, reverse=True)]: a stable sort in descending key order;
    elements with equal keys keep their original relative order. *)
Section Sort.
Context {A : Type} (key : A -> Q).

Fixpoint insert_desc (x : A) (l : list A) : list A :=
  match l with
  | [] => [x]
  | y :: l' =>
      if ltb (key x) (key y) then y :: insert_desc x l' else x :: y :: l'
  end.

Fixpoint sort_desc (l : list A) : list A :=
  match l with
  | [] => []
  | x :: l' => insert_desc x (sort_desc l')
  end.
End Sort.

(** [range(start, stop, step)] as a list; a zero step raises ValueError. *)
Definition range (start stop step : Z) : option (list Z) :=
  if (step =? 0)%Z then None
  else
    let count :=
      if (0 <? step)%Z
      then ((stop - start + step - 1) / step)%Z
      else ((start - stop - step - 1) / (- step))%Z in
    Some (map (fun k => (start + Z.of_nat k * step)%Z) (seq 0 (Z.to_nat count))).

(** [data.iloc[k]] (and [l[k]]): a negative position counts from the end; a
    position outside the data raises IndexError. *)
Definition iloc {A : Type} (data : list A) (k : Z) : option A :=
  let n := Z.of_nat (List.length data) in
  let k' := if (k <? 0)%Z then (k + n)%Z else k in
  if (k' <? 0)%Z || (n <=? k')%Z then None else nth_error data (Z.to_nat k').

(** One bound of a slice, brought into [0 .. n]. *)
Definition slice_bound (n k : Z) : Z :=
  if (k <? 0)%Z then Z.max (k + n) 0 else Z.min k n.

(** [data.iloc[start:stop]]; [stop = None] is [data.iloc[start:]]. *)
Definition slice {A : Type} (data : list A) (start : Z) (stop : option Z)
  : list A :=
  let n := Z.of_nat (List.length data) in
  let a := slice_bound n start in
  let b := match stop with Some k => slice_bound n k | None => n end in
  firstn (Z.to_nat (b - a)) (skipn (Z.to_nat a) data).

(** The float64 nearest to an integer, ties to even: what an int64 cell
    becomes when pandas hands out a row of numeric columns as one float64
    Series.  Integers of magnitude up to 2^53 are kept as they are. *)
Definition float64_of_int (z : Z) : Z :=
  let a := Z.abs z in
  let k := (Z.log2 a - 52)%Z in
  if (k <=? 0)%Z then z
  else
    let q := Z.shiftr a k in
    let r := (a - Z.shiftl q k)%Z in
    let half := Z.shiftl 1 (k - 1) in
    let q' := if (half <? r)%Z || ((r =? half)%Z && Z.odd q)
              then (q + 1)%Z else q in
    (Z.sgn z * Z.shiftl q' k)%Z.

End Py.

(** ** strategy/bankroll.py *)

Module Bankroll.

(** The [self.state] dictionary (the date and timestamp strings are left
    out: no arithmetic reads them). *)
Record State : Type := mkState {
  balance : Q;
  st_initial_balance : Q;
  daily_loss : Q;
  total_bets : Z;
  wins : Z;
  losses : Z;
  total_profit : Q;
  max_balance : Q;
  min_balance : Q
}.

Record BankrollManager : Type := mkManager {
  initial_balance : Q;
  kelly_fraction : Q;
  max_daily_loss_pct : Q;
  bet_size_cap : Q;
  state : State
}.

(** The state [_load_state] creates when there is no state file. *)
Definition new_state (initial : Q) : State :=
  {| balance := initial;
     st_initial_balance := initial;
     daily_loss := 0;
     total_bets := 0%Z;
     wins := 0%Z;
     losses := 0%Z;
     total_profit := 0;
     max_balance := initial;
     min_balance := initial |}.

(** [BankrollManager.__init__] with no state file on disk: the cap is given
    in percent and stored as a fraction. *)
Definition init (initial kelly max_loss_pct cap_pct : Q) : BankrollManager :=
  {| initial_balance := initial;
     kelly_fraction := kelly;
     max_daily_loss_pct := max_loss_pct;
     bet_size_cap := cap_pct / 100;
     state := new_state initial |}.

(** [create_bankroll_manager()] with its default arguments. *)
Definition default_manager : BankrollManager := init 1000 0.5 20 5.

Definition with_state (self : BankrollManager) (s : State) : BankrollManager :=
  {| initial_balance := initial_balance self;
     kelly_fraction := kelly_fraction self;
     max_daily_loss_pct := max_daily_loss_pct self;
     bet_size_cap := bet_size_cap self;
     state := s |}.

(** [size_bet]; [None] would be a ZeroDivisionError. *)
Definition size_bet (self : BankrollManager) (edge odds : Q) : option Q :=
  if Py.leb edge 0 || Py.leb 1 edge || Py.leb odds 1 then Some 0
  else
    let b := odds - 1 in
    let p := edge in
    let q := 1 - edge in
    match Py.div (b * p - q) b with
    | None => None
    | Some kelly_fraction_raw =>
        let kelly_fraction_actual := kelly_fraction_raw * kelly_fraction self in
        let bet_size := Py.min kelly_fraction_actual (bet_size_cap self) in
        Some (Py.max 0 bet_size)
    end.

(** [calculate_bet_amount]. *)
Definition calculate_bet_amount (self : BankrollManager) (edge odds : Q)
  : option Q :=
  match size_bet self edge odds with
  | None => None
  | Some bet_size_pct => Some (balance (state self) * bet_size_pct)
  end.

(** The dictionary [update_balance] returns. *)
Record UpdateInfo : Type := mkInfo {
  old_balance : Q;
  new_balance : Q;
  profit : Q;
  roi : Q;
  total_roi : Q;
  win_rate : Q
}.

(** The mutation [update_balance] performs on [self.state]. *)
Definition update_state (s : State) (result : Q) : State :=
  let new_balance := balance s + result in
  {| balance := new_balance;
     st_initial_balance := st_initial_balance s;
     daily_loss :=
       if Py.ltb 0 result then daily_loss s
       else daily_loss s + Py.abs result;
     total_bets := (total_bets s + 1)%Z;
     wins := if Py.ltb 0 result then (wins s + 1)%Z else wins s;
     losses := if Py.ltb 0 result then losses s else (losses s + 1)%Z;
     total_profit := total_profit s + result;
     max_balance := Py.max (max_balance s) new_balance;
     min_balance := Py.min (min_balance s) new_balance |}.

(** [update_balance]: the state is mutated (and saved) first, the returned
    dictionary is built afterwards; a ZeroDivisionError while building it
    ([None]) leaves the mutation in place. *)
Definition update_balance (self : BankrollManager) (bet_amount result : Q)
  : BankrollManager * option UpdateInfo :=
  let old := balance (state self) in
  let s' := update_state (state self) result in
  let self' := with_state self s' in
  let info :=
    match (if Py.ltb 0 old
           then match Py.div result old with
                | Some r => Some (r * 100)
                | None => None
                end
           else Some 0) with
    | None => None
    | Some roi_v =>
        match Py.div (balance s' - initial_balance self) (initial_balance self) with
        | None => None
        | Some t =>
            match (if (0 <? total_bets s')%Z
                   then match Py.div (inject_Z (wins s')) (inject_Z (total_bets s')) with
                        | Some w => Some (w * 100)
                        | None => None
                        end
                   else Some 0) with
            | None => None
            | Some wr =>
                Some {| old_balance := old;
                        new_balance := balance s';
                        profit := result;
                        roi := roi_v;
                        total_roi := t * 100;
                        win_rate := wr |}
            end
        end
    end in
  (self', info).

(** A finite sequence of [update_balance] calls, each given as
    [(bet_amount, result)].  A call that raises while it builds its return
    value has already mutated the state: the next call starts from there. *)
Fixpoint run_updates (self : BankrollManager) (calls : list (Q * Q))
  : BankrollManager :=
  match calls with
  | [] => self
  | (bet_amount, result) :: rest =>
      run_updates (fst (update_balance self bet_amount result)) rest
  end.

(** [apply_daily_loss_cap]; [None] would be a ZeroDivisionError. *)
Definition apply_daily_loss_cap (self : BankrollManager) : option bool :=
  if Py.leb (balance (state self)) 0 then Some false
  else
    match Py.div (daily_loss (state self)) (balance (state self)) with
    | None => None
    | Some r =>
        let daily_loss_pct := r * 100 in
        Some (Py.ltb daily_loss_pct (max_daily_loss_pct self))
    end.

(** The dictionary [get_status] returns. *)
Record Status : Type := mkStatus {
  status_balance : Q;
  status_initial_balance : Q;
  status_total_roi : Q;
  status_daily_loss : Q;
  status_daily_loss_pct : Q;
  status_max_daily_loss_pct : Q;
  can_bet : bool;
  status_total_bets : Z;
  status_wins : Z;
  status_losses : Z;
  status_win_rate : Q;
  status_max_balance : Q;
  status_min_balance : Q;
  max_drawdown : Q
}.

(** [c if guard else 0] where [c] is a ratio times 100. *)
Definition guarded_pct (guard : bool) (num den : Q) : option Q :=
  if guard
  then match Py.div num den with
       | Some r => Some (r * 100)
       | None => None
       end
  else Some 0.

(** [get_status]: the dictionary entries are evaluated in order; the total
    ROI divides by the state's own [initial_balance] without a guard. *)
Definition get_status (self : BankrollManager) : option Status :=
  let s := state self in
  let current_balance := balance s in
  let initial := st_initial_balance s in
  match Py.div (current_balance - initial) initial with
  | None => None
  | Some t =>
      match guarded_pct (Py.ltb 0 current_balance) (daily_loss s) current_balance with
      | None => None
      | Some dl_pct =>
          match apply_daily_loss_cap self with
          | None => None
          | Some cb =>
              match guarded_pct (0 <? total_bets s)%Z
                                (inject_Z (wins s)) (inject_Z (total_bets s)) with
              | None => None
              | Some wr =>
                  match guarded_pct (Py.ltb 0 (max_balance s))
                                    (max_balance s - current_balance)
                                    (max_balance s) with
                  | None => None
                  | Some dd =>
                      Some {| status_balance := current_balance;
                              status_initial_balance := initial;
                              status_total_roi := t * 100;
                              status_daily_loss := daily_loss s;
                              status_daily_loss_pct := dl_pct;
                              status_max_daily_loss_pct := max_daily_loss_pct self;
                              can_bet := cb;
                              status_total_bets := total_bets s;
                              status_wins := wins s;
                              status_losses := losses s;
                              status_win_rate := wr;
                              status_max_balance := max_balance s;
                              status_min_balance := min_balance s;
                              max_drawdown := dd |}
                  end
              end
          end
      end
  end.

(** [reset_daily_tracking]. *)
Definition reset_daily_tracking (self : BankrollManager) : BankrollManager :=
  let s := state self in
  with_state self
    {| balance := balance s;
       st_initial_balance := st_initial_balance s;
       daily_loss := 0;
       total_bets := total_bets s;
       wins := wins s;
       losses := losses s;
       total_profit := total_profit s;
       max_balance := max_balance s;
       min_balance := min_balance s |}.

(** [reset_bankroll(new_balance=None)]: the state is rebuilt around the new
    balance; [self.initial_balance] is left as it was. *)
Definition reset_bankroll (self : BankrollManager) (new_balance : option Q)
  : BankrollManager :=
  let new_balance :=
    match new_balance with
    | None => initial_balance self
    | Some b => b
    end in
  with_state self
    {| balance := new_balance;
       st_initial_balance := new_balance;
       daily_loss := 0;
       total_bets := 0%Z;
       wins := 0%Z;
       losses := 0%Z;
       total_profit := 0;
       max_balance := new_balance;
       min_balance := new_balance |}.

(** The mutating calls a client can make on a manager. *)
Inductive Call : Type :=
| CallUpdate (bet_amount result : Q)
| CallResetDaily
| CallResetBankroll (new_balance : option Q).

Definition call (self : BankrollManager) (c : Call) : BankrollManager :=
  match c with
  | CallUpdate bet_amount result => fst (update_balance self bet_amount result)
  | CallResetDaily => reset_daily_tracking self
  | CallResetBankroll new_balance => reset_bankroll self new_balance
  end.

Definition run_calls (self : BankrollManager) (calls : list Call)
  : BankrollManager :=
  fold_left call calls self.

(** [create_bankroll_manager(...)]: [__init__] takes over the state
    [_load_state] found on disk ([loaded]) or starts a fresh one. *)
Definition create_bankroll_manager (loaded : option State)
           (initial kelly max_loss_pct cap_pct : Q) : BankrollManager :=
  {| initial_balance := initial;
     kelly_fraction := kelly;
     max_daily_loss_pct := max_loss_pct;
     bet_size_cap := cap_pct / 100;
     state := match loaded with
              | Some s => s
              | None => new_state initial
              end |}.

End Bankroll.

(** ** strategy/ev.py *)

Module EV.

Record EVConfig : Type := mkConfig {
  cash_slippage_pct : Q;
  sidebet_payout : Q;
  sidebet_fee_pct : Q;
  cash_hold_dt_s : Q;
  future_gain_multiplier_if_survive : Q;
  safety_floor_x : Q;
  min_probability : Q;
  max_probability : Q;
  default_stake_pct : Q;
  max_stake_pct : Q;
  ev_threshold : Q
}.

(** [EVConfig()] with the dataclass defaults. *)
Definition default_config : EVConfig :=
  {| cash_slippage_pct := 0.002;
     sidebet_payout := 5;
     sidebet_fee_pct := 0.02;
     cash_hold_dt_s := 2;
     future_gain_multiplier_if_survive := 1.15;
     safety_floor_x := 1.02;
     min_probability := 1e-6;
     max_probability := 0.999999;
     default_stake_pct := 0.01;
     max_stake_pct := 0.05;
     ev_threshold := 0.001 |}.

(** The configuration [tests/test_ev.py] passes as [cfg]. *)
Definition test_config : EVConfig :=
  {| cash_slippage_pct := 0.001;
     sidebet_payout := 4;
     sidebet_fee_pct := 0.01;
     cash_hold_dt_s := 1;
     future_gain_multiplier_if_survive := 1.1;
     safety_floor_x := 1.01;
     min_probability := 1e-6;
     max_probability := 0.999999;
     default_stake_pct := 0.01;
     max_stake_pct := 0.05;
     ev_threshold := 0.001 |}.

Inductive Action : Type := HOLD | TRIM | CASH | ARM_SIDEBET.

Definition Action_eqb (a b : Action) : bool :=
  match a, b with
  | HOLD, HOLD | TRIM, TRIM | CASH, CASH | ARM_SIDEBET, ARM_SIDEBET => true
  | _, _ => false
  end.

(** The rationale is a formatted string; its template and the number it
    prints are kept, the formatting is not. *)
Inductive Rationale : Type :=
| HoldGain (ev_hold_vs_cash : Q)
| HoldMinimalLoss (ev_hold_vs_cash : Q)
| CashSecure (ev_cash : Q)
| SidebetPositive (ev_sidebet_vs_cash : Q)
| NoClearEdge.

Record EVResult : Type := mkResult {
  action : Action;
  evs : list (Action * Q);
  rationale : Rationale;
  confidence : Q
}.

(** The engine object: [self.config]. *)
Record EVEngine : Type := mkEngine { config : EVConfig }.

(** The [cfg = self.config if cfg is None] prologue of every method. *)
Definition cfg_or_self (self : EVEngine) (cfg : option EVConfig) : EVConfig :=
  match cfg with
  | None => config self
  | Some c => c
  end.

(** [_clamp_probability]: always reads the bounds of [self.config]. *)
Definition clamp_probability (self : EVEngine) (p : Q) : Q :=
  Py.clip p (min_probability (config self)) (max_probability (config self)).

Definition ev_cash_hold (self : EVEngine) (p_rug_5s x : Q)
           (cfg : option EVConfig) : Q :=
  let cfg := cfg_or_self self cfg in
  let p_rug := clamp_probability self p_rug_5s in
  let p_survive := 1 - p_rug in
  let future_x := x * future_gain_multiplier_if_survive cfg in
  let crash_x := safety_floor_x cfg in
  p_survive * future_x + p_rug * crash_x.

Definition ev_cash_now (self : EVEngine) (x : Q) (cfg : option EVConfig) : Q :=
  let cfg := cfg_or_self self cfg in
  x * (1 - cash_slippage_pct cfg).

Definition ev_sidebet (self : EVEngine) (p_rug_10s stake : Q)
           (cfg : option EVConfig) : Q :=
  let cfg := cfg_or_self self cfg in
  let p_rug := clamp_probability self p_rug_10s in
  let win_amount := stake * (sidebet_payout cfg - 1) * (1 - sidebet_fee_pct cfg) in
  let loss_amount := - stake in
  p_rug * win_amount + (1 - p_rug) * loss_amount.

(** One entry of the [actions] list: name, EV relative to cashing, text. *)
Definition Candidate : Type := (Action * Q * string)%type.

Definition cand_name (c : Candidate) : Action := fst (fst c).
Definition cand_ev (c : Candidate) : Q := snd (fst c).

(** The locals [ev_hold_vs_cash], [ev_cash] and [ev_sidebet_vs_cash] of
    [best_action]: both probabilities are clamped first, then handed to
    the EV functions (which clamp again). *)
Definition ev_hold_vs_cash (self : EVEngine) (p5 x : Q)
           (cfg : option EVConfig) : Q :=
  let cfg' := cfg_or_self self cfg in
  let p5 := clamp_probability self p5 in
  let ev_hold := ev_cash_hold self p5 x (Some cfg') in
  let ev_cash := ev_cash_now self x (Some cfg') in
  ev_hold - ev_cash.

Definition ev_sidebet_vs_cash (self : EVEngine) (p10 bankroll : Q)
           (cfg : option EVConfig) : Q :=
  let cfg' := cfg_or_self self cfg in
  let p10 := clamp_probability self p10 in
  ev_sidebet self p10 (bankroll * default_stake_pct cfg') (Some cfg').

(** The [actions] list of [best_action] before it is sorted. *)
Definition candidates (self : EVEngine) (p5 p10 x bankroll : Q)
           (cfg : option EVConfig) : list Candidate :=
  let cfg' := cfg_or_self self cfg in
  let actions :=
    [(HOLD, ev_hold_vs_cash self p5 x cfg, "Hold for potential gains"%string);
     (CASH, 0, "Cash out now"%string)] in
  if Py.ltb (ev_threshold cfg') (ev_sidebet_vs_cash self p10 bankroll cfg)
  then actions ++ [(ARM_SIDEBET, ev_sidebet_vs_cash self p10 bankroll cfg,
                    "Place sidebet for positive EV"%string)]
  else actions.

(** The [evs] dictionary, in insertion order. *)
Definition evs_of (actions : list Candidate) : list (Action * Q) :=
  map fst actions.

(** [actions.sort(key=lambda x: x[1], reverse=True)]. *)
Definition ranked (self : EVEngine) (p5 p10 x bankroll : Q)
           (cfg : option EVConfig) : list Candidate :=
  Py.sort_desc cand_ev (candidates self p5 p10 x bankroll cfg).

(** [min(0.95, max(0.05, 0.5 + ev_delta * 10))]. *)
Definition confidence_of (ev_delta : Q) : Q :=
  Py.min 0.95 (Py.max 0.05 (0.5 + ev_delta * 10)).

(** [best_action]; [None] would be the IndexError of [actions[0]] on an
    empty list. *)
Definition best_action (self : EVEngine) (p5 p10 x bankroll : Q)
           (cfg : option EVConfig) : option EVResult :=
  let cfg' := cfg_or_self self cfg in
  match ranked self p5 p10 x bankroll cfg with
  | [] => None
  | best :: rest =>
      let best_action_name := cand_name best in
      let best_ev := cand_ev best in
      let second_best_ev :=
        match rest with
        | second :: _ => cand_ev second
        | [] => 0
        end in
      let ev_delta := best_ev - second_best_ev in
      let rationale :=
        match best_action_name with
        | HOLD => if Py.ltb 0 (ev_hold_vs_cash self p5 x cfg)
                  then HoldGain (ev_hold_vs_cash self p5 x cfg)
                  else HoldMinimalLoss (ev_hold_vs_cash self p5 x cfg)
        | CASH => CashSecure (ev_cash_now self x (Some cfg'))
        | ARM_SIDEBET => SidebetPositive (ev_sidebet_vs_cash self p10 bankroll cfg)
        | TRIM => NoClearEdge
        end in
      Some {| action := best_action_name;
              evs := evs_of (candidates self p5 p10 x bankroll cfg);
              rationale := rationale;
              confidence := confidence_of ev_delta |}
  end.

(** The dictionary [get_all_evs] returns. *)
Record AllEVs : Type := mkAllEVs {
  all_ev_hold : Q;
  all_ev_cash_now : Q;
  all_ev_sidebet : Q;
  all_ev_hold_vs_cash : Q
}.

(** [get_all_evs]: the probabilities go to the EV functions as given. *)
Definition get_all_evs (self : EVEngine) (p5 p10 x bankroll : Q)
           (cfg : option EVConfig) : AllEVs :=
  let cfg' := cfg_or_self self cfg in
  {| all_ev_hold := ev_cash_hold self p5 x (Some cfg');
     all_ev_cash_now := ev_cash_now self x (Some cfg');
     all_ev_sidebet :=
       ev_sidebet self p10 (bankroll * default_stake_pct cfg') (Some cfg');
     all_ev_hold_vs_cash :=
       ev_cash_hold self p5 x (Some cfg') - ev_cash_now self x (Some cfg') |}.

End EV.

(** ** regime.py *)

Module Regime.

Record RegimeConfig : Type := mkConfig {
  lookback_rounds : Z;
  vol_low_threshold : Q;
  vol_high_threshold : Q;
  slope_low_threshold : Q;
  slope_high_threshold : Q;
  min_rounds_per_regime : Z
}.

Definition default_config : RegimeConfig :=
  {| lookback_rounds := 200;
     vol_low_threshold := 0.1;
     vol_high_threshold := 0.3;
     slope_low_threshold := 0.05;
     slope_high_threshold := 0.15;
     min_rounds_per_regime := 50 |}.

Inductive Label : Type := low_vol | normal | high_vol.

(** One row of the DataFrame: the two columns [detect_regime] reads.  A
    NaN cell is [None]. *)
Record Row : Type := mkRow {
  volatility : option Q;
  slope_magnitude : option Q
}.

(** The non-NaN cells of a column. *)
Definition present (col : list (option Q)) : list Q :=
  flat_map (fun c => match c with Some v => [v] | None => [] end) col.

Definition sum (l : list Q) : Q := fold_right Qplus 0 l.

(** [Series.mean()]: NaN cells are skipped; the mean of no cell at all is
    NaN ([None]). *)
Definition mean (col : list (option Q)) : option Q :=
  match present col with
  | [] => None
  | vs => Some (sum vs / inject_Z (Z.of_nat (List.length vs)))
  end.

(** [a < t] and [a > t] where [a] may be NaN: every comparison with NaN is
    false. *)
Definition nan_ltb (a : option Q) (t : Q) : bool :=
  match a with Some v => Py.ltb v t | None => false end.

Definition nan_gtb (a : option Q) (t : Q) : bool :=
  match a with Some v => Py.ltb t v | None => false end.

Definition detect_regime (cfg : RegimeConfig) (data : list Row) : Label :=
  if (Z.of_nat (List.length data) <? min_rounds_per_regime cfg)%Z then normal
  else
    let avg_vol := mean (map volatility data) in
    let avg_slope := mean (map slope_magnitude data) in
    if nan_ltb avg_vol (vol_low_threshold cfg)
       && nan_ltb avg_slope (slope_low_threshold cfg)
    then low_vol
    else if nan_gtb avg_vol (vol_high_threshold cfg)
            || nan_gtb avg_slope (slope_high_threshold cfg)
    then high_vol
    else normal.

(** One row of the rounds DataFrame with the other columns
    [detect_regime_changes] reads. *)
Record Round : Type := mkRound {
  id : Z;
  started_at : Z;
  cells : Row
}.

(** [RegimeInfo] (the [detected_at] time stamp is left out). *)
Record RegimeInfo : Type := mkInfo {
  regime : Label;
  start_round : Z;
  end_round : Z;
  round_count : Z;
  avg_volatility : option Q;
  avg_slope : option Q;
  vol_std : option Q;
  slope_std : option Q
}.

Definition Label_eqb (a b : Label) : bool :=
  match a, b with
  | low_vol, low_vol | normal, normal | high_vol, high_vol => true
  | _, _ => false
  end.

(** The loop variables of [detect_regime_changes]. *)
Record LoopState : Type := mkLoop {
  regimes : list RegimeInfo;
  current_regime : option Label;
  regime_start : Z
}.

Section Changes.

(** [Series.std()] takes a square root and [sort_values] does not fix the
    order of rounds with equal [started_at]; both are taken as given. *)
Variable std : list (option Q) -> option Q.
Variable sort_values : list Round -> list Round.

(** The [RegimeInfo(...)] built for the rounds [start .. stop) of [data] whose
    last round sits at [last]; [None] is the IndexError of [data.iloc].  The
    ids are read from a row, [data.iloc[k]['id']], hence as float64. *)
Definition segment_info (data : list Round) (label : Label)
           (start : Z) (stop : option Z) (last count : Z) : option RegimeInfo :=
  match Py.iloc data start with
  | None => None
  | Some first_round =>
      match Py.iloc data last with
      | None => None
      | Some last_round =>
          let seg := map cells (Py.slice data start stop) in
          Some {| regime := label;
                  start_round := Py.float64_of_int (id first_round);
                  end_round := Py.float64_of_int (id last_round);
                  round_count := count;
                  avg_volatility := mean (map volatility seg);
                  avg_slope := mean (map slope_magnitude seg);
                  vol_std := std (map volatility seg);
                  slope_std := std (map slope_magnitude seg) |}
      end
  end.

(** One iteration of the sliding-window loop. *)
Definition window_step (cfg : RegimeConfig) (data : list Round) (window_size : Z)
           (st : LoopState) (i : Z) : option LoopState :=
  let window_data := Py.slice data i (Some (i + window_size)%Z) in
  let new_regime := detect_regime cfg (map cells window_data) in
  match current_regime st with
  | Some current =>
      if Label_eqb new_regime current then Some st
      else
        match segment_info data current (regime_start st) (Some i) (i - 1)%Z
                           (i - regime_start st)%Z with
        | None => None
        | Some regime_info =>
            Some {| regimes := regimes st ++ [regime_info];
                    current_regime := Some new_regime;
                    regime_start := i |}
        end
  | None =>
      Some {| regimes := regimes st;
              current_regime := Some new_regime;
              regime_start := i |}
  end.

Fixpoint window_loop (cfg : RegimeConfig) (data : list Round) (window_size : Z)
         (indices : list Z) (st : LoopState) : option LoopState :=
  match indices with
  | [] => Some st
  | i :: rest =>
      match window_step cfg data window_size st i with
      | None => None
      | Some st' => window_loop cfg data window_size rest st'
      end
  end.

(** [detect_regime_changes]; [None] is an exception (the ValueError of a
    zero [range] step, or an IndexError). *)
Definition detect_regime_changes (cfg : RegimeConfig) (data : list Round)
  : option (list RegimeInfo) :=
  if (Z.of_nat (List.length data) <? min_rounds_per_regime cfg)%Z then Some []
  else
    let data := sort_values data in
    let n := Z.of_nat (List.length data) in
    let window_size := Z.min (min_rounds_per_regime cfg) (n / 4)%Z in
    match Py.range 0 (n - window_size + 1)%Z (window_size / 2)%Z with
    | None => None
    | Some indices =>
        match window_loop cfg data window_size indices
                          {| regimes := []; current_regime := None;
                             regime_start := 0%Z |} with
        | None => None
        | Some st =>
            match current_regime st with
            | None => Some (regimes st)
            | Some current =>
                match segment_info data current (regime_start st) None (-1)%Z
                                   (n - regime_start st)%Z with
                | None => None
                | Some regime_info => Some (regimes st ++ [regime_info])
                end
            end
        end
    end.

(** The body of [get_current_regime] once [load_recent_data] has returned
    [data]. *)
Definition current_regime_info (cfg : RegimeConfig) (data : list Round)
  : option RegimeInfo :=
  let current := detect_regime cfg (map cells data) in
  let nonempty := (0 <? Z.of_nat (List.length data))%Z in
  let guarded_id (k : Z) : option Z :=
    if nonempty
    then match Py.iloc data k with
         | Some r => Some (Py.float64_of_int (id r))
         | None => None
         end
    else Some 0%Z in
  let guarded_stat (f : list (option Q) -> option Q) (col : list (option Q))
    : option Q :=
    if nonempty then f col else Some 0 in
  match guarded_id 0%Z with
  | None => None
  | Some first_id =>
      match guarded_id (-1)%Z with
      | None => None
      | Some last_id =>
          Some {| regime := current;
                  start_round := first_id;
                  end_round := last_id;
                  round_count := Z.of_nat (List.length data);
                  avg_volatility :=
                    guarded_stat mean (map volatility (map cells data));
                  avg_slope :=
                    guarded_stat mean (map slope_magnitude (map cells data));
                  vol_std := guarded_stat std (map volatility (map cells data));
                  slope_std :=
                    guarded_stat std (map slope_magnitude (map cells data)) |}
      end
  end.

End Changes.

End Regime.

(** ** tune_thresholds.py *)

Module Tuner.

(** The dictionary [simulate_with_thresholds] returns for one pair. *)
Record SweepResult : Type := mkSweep {
  cash_threshold : Q;
  sidebet_threshold : Q;
  total_return : Q;
  sharpe_ratio : Q;
  max_drawdown : Q;
  prob_ruin : Q;
  trades_count : Z;
  final_bankroll : Q
}.

(** The condition of the inner [if] of [find_pareto_optimal]. *)
Definition dominates (other result : SweepResult) : bool :=
  Py.leb (total_return result) (total_return other)
  && Py.leb (sharpe_ratio result) (sharpe_ratio other)
  && Py.leb (max_drawdown other) (max_drawdown result)
  && (Py.ltb (total_return result) (total_return other)
      || Py.ltb (sharpe_ratio result) (sharpe_ratio other)
      || Py.ltb (max_drawdown other) (max_drawdown result)).

(** The inner loop with its [break]: some entry of [results] dominates
    [result]. *)
Definition dominated (results : list SweepResult) (result : SweepResult) : bool :=
  existsb (fun other => dominates other result) results.

Definition find_pareto_optimal (results : list SweepResult) : list SweepResult :=
  match results with
  | [] => []
  | _ =>
      let pareto := filter (fun result => negb (dominated results result)) results in
      Py.sort_desc sharpe_ratio pareto
  end.

End Tuner.

(** ** simulate.py *)

Module Simulate.

(** A numpy [float64]: division by zero does not raise, it gives an
    infinity or NaN. *)
Inductive NpFloat : Type :=
| Fin (q : Q)
| PInf
| NInf
| NaN.

(** [a / b] on [float64] values that are finite. *)
Definition np_div (a b : Q) : NpFloat :=
  if Qeq_bool b 0
  then if Py.ltb 0 a then PInf else if Py.ltb a 0 then NInf else NaN
  else Fin (a / b).

(** [a > b]; every comparison with NaN is false. *)
Definition np_gtb (a b : NpFloat) : bool :=
  match a, b with
  | NaN, _ | _, NaN => false
  | PInf, PInf => false
  | PInf, _ => true
  | _, PInf => false
  | NInf, _ => false
  | Fin _, NInf => true
  | Fin x, Fin y => Py.ltb y x
  end.

(** Builtin [max(a, b)] on such values. *)
Definition np_max (a b : NpFloat) : NpFloat := if np_gtb b a then b else a.

(** The loop of [_calculate_max_drawdown]. *)
Fixpoint drawdown_loop (values : list Q) (peak : Q) (max_dd : NpFloat) : NpFloat :=
  match values with
  | [] => max_dd
  | value :: rest =>
      let peak := if Py.ltb peak value then value else peak in
      let dd := np_div (peak - value) peak in
      drawdown_loop rest peak (np_max max_dd dd)
  end.

(** [_calculate_max_drawdown]; [None] is the IndexError of
    [equity_curve[0]] on an empty curve. *)
Definition calculate_max_drawdown (equity_curve : list Q) : option NpFloat :=
  match equity_curve with
  | [] => None
  | first :: _ => Some (drawdown_loop equity_curve first (Fin 0))
  end.

(** The pair [_get_prediction] returns, [(p_rug_5s, p_rug_10s)];
    [has_model] is the truth value of [self.model]. *)
Definition get_prediction (has_model : bool) (x t : Q) : Q * Q :=
  if negb has_model then (0.1, 0.2)
  else
    let p_rug_5s := Py.min 0.8 (0.1 + (x - 1) * 0.1 + (t / 60) * 0.2) in
    let p_rug_10s := Py.min 0.9 (p_rug_5s + 0.1) in
    (p_rug_5s, p_rug_10s).

(** One row of [rounds_df]: the columns the naive strategy reads; a NaN
    [rug_x] is [None]. *)
Record RoundRow : Type := mkRoundRow {
  round_id : Z;
  rug_x : option Q
}.

(** One entry of [trades] (its [strategy] entry is the constant name). *)
Record Trade : Type := mkTrade {
  trade_round_id : Z;
  trade_bet_amount : Q;
  trade_result : Q;
  trade_balance : Q
}.

(** The loop variables of [simulate_naive_strategy]. *)
Record Run : Type := mkRun {
  bm : Bankroll.BankrollManager;
  equity_curve : list Q;
  trades : list Trade
}.

(** One iteration of the loop over the rounds; [None] is the
    ZeroDivisionError of [update_balance]. *)
Definition naive_step (cashout_multiplier : Q) (run : Run) (round_data : RoundRow)
  : option Run :=
  match rug_x round_data with
  | None => Some run
  | Some rug =>
      let target_reached := Py.leb cashout_multiplier rug in
      let bet_amount := Bankroll.balance (Bankroll.state (bm run)) * 0.1 in
      let outcome :=
        if target_reached then bet_amount * (cashout_multiplier - 1)
        else - bet_amount in
      match Bankroll.update_balance (bm run) bet_amount outcome with
      | (_, None) => None
      | (bm', Some result) =>
          Some {| bm := bm';
                  equity_curve :=
                    equity_curve run ++ [Bankroll.new_balance result];
                  trades :=
                    trades run
                    ++ [{| trade_round_id := round_id round_data;
                           trade_bet_amount := bet_amount;
                           trade_result := outcome;
                           trade_balance := Bankroll.new_balance result |}] |}
      end
  end.

Fixpoint naive_loop (cashout_multiplier : Q) (rounds : list RoundRow) (run : Run)
  : option Run :=
  match rounds with
  | [] => Some run
  | round_data :: rest =>
      match naive_step cashout_multiplier run round_data with
      | None => None
      | Some run' => naive_loop cashout_multiplier rest run'
      end
  end.

(** [simulate_naive_strategy]: [metrics] stands for
    [_calculate_strategy_metrics] (it takes square roots), [loaded] for the
    bankroll state found on disk, if any. *)
Definition simulate_naive_strategy {R : Type}
           (metrics : string -> list Q -> list Trade -> Bankroll.BankrollManager -> R)
           (loaded : option Bankroll.State) (initial_balance : Q)
           (rounds_df : list RoundRow) (cashout_multiplier : Q) : option R :=
  let bm0 := Bankroll.create_bankroll_manager loaded initial_balance 0.5 20 5 in
  match naive_loop cashout_multiplier rounds_df
                   {| bm := bm0; equity_curve := [initial_balance]; trades := [] |} with
  | None => None
  | Some run => Some (metrics "naive"%string (equity_curve run) (trades run) (bm run))
  end.

End Simulate.

(** ** Predicates used to state the properties *)

(** The bookkeeping invariant of the bankroll state. *)
Definition tallies_ok (s : Bankroll.State) : Prop :=
  (Bankroll.wins s + Bankroll.losses s = Bankroll.total_bets s)%Z.

(** The running extrema bracket the balance. *)
Definition extrema_ok (s : Bankroll.State) : Prop :=
  Bankroll.min_balance s <= Bankroll.balance s
  /\ Bankroll.balance s <= Bankroll.max_balance s.

(** What every mutator of the bankroll state keeps true. *)
Definition ledger_ok (s : Bankroll.State) : Prop :=
  tallies_ok s /\ extrema_ok s
  /\ (0 <= Bankroll.wins s)%Z /\ (0 <= Bankroll.losses s)%Z
  /\ 0 <= Bankroll.daily_loss s
  /\ Bankroll.min_balance s <= Bankroll.st_initial_balance s
  /\ Bankroll.st_initial_balance s <= Bankroll.max_balance s.

(** Descending key order. *)
Definition desc {A : Type} (key : A -> Q) (a b : A) : Prop := key b <= key a.

(** A mean that may be NaN is below (above) a threshold. *)
Definition mean_below (m : option Q) (t : Q) : Prop :=
  exists v, m = Some v /\ v < t.

Definition mean_above (m : option Q) (t : Q) : Prop :=
  exists v, m = Some v /\ t < v.

(** Adjacent segments carry different labels. *)
Fixpoint alternating (l : list Regime.RegimeInfo) : Prop :=
  match l with
  | a :: (b :: _) as rest => Regime.regime a <> Regime.regime b /\ alternating rest
  | _ => True
  end.

(** The rounds covered by a list of segments. *)
Definition rounds_covered (l : list Regime.RegimeInfo) : Z :=
  fold_right Z.add 0%Z (map Regime.round_count l).

(** What the sliding-window loop of [detect_regime_changes] keeps true of
    its variables over a history of [n] rounds. *)
Definition segments_inv (n : Z) (st : Regime.LoopState) : Prop :=
  match Regime.current_regime st with
  | None => Regime.regimes st = [] /\ Regime.regime_start st = 0%Z
  | Some c =>
      (0 <= Regime.regime_start st < n)%Z
      /\ rounds_covered (Regime.regimes st) = Regime.regime_start st
      /\ Forall (fun s => (0 < Regime.round_count s)%Z) (Regime.regimes st)
      /\ alternating (Regime.regimes st)
      /\ (forall info rest,
             rev (Regime.regimes st) = info :: rest -> Regime.regime info <> c)
  end.


(** [b] dominates [a]: at least as good on return, Sharpe ratio and drawdown,
    and strictly better on one of them. *)
Definition Dominates (b a : Tuner.SweepResult) : Prop :=
  Tuner.total_return a <= Tuner.total_return b
  /\ Tuner.sharpe_ratio a <= Tuner.sharpe_ratio b
  /\ Tuner.max_drawdown b <= Tuner.max_drawdown a
  /\ (Tuner.total_return a < Tuner.total_return b
      \/ Tuner.sharpe_ratio a < Tuner.sharpe_ratio b
      \/ Tuner.max_drawdown b < Tuner.max_drawdown a).

(** * Properties *)

(** ** Comparisons, min, max and clip *)

Section PyFacts.

Lemma ltb_lt (a b : Q) : Py.ltb a b = true <-> a < b.
Proof.
  unfold Py.ltb. rewrite negb_true_iff, <- not_true_iff_false, Qle_bool_iff.
  split; [apply Qnot_le_lt | apply Qlt_not_le].
Qed.

Lemma ltb_ge (a b : Q) : Py.ltb a b = false <-> b <= a.
Proof.
  unfold Py.ltb. rewrite negb_false_iff. apply Qle_bool_iff.
Qed.

Lemma leb_le (a b : Q) : Py.leb a b = true <-> a <= b.
Proof. apply Qle_bool_iff. Qed.

Lemma leb_gt (a b : Q) : Py.leb a b = false <-> b < a.
Proof.
  unfold Py.leb. rewrite <- not_true_iff_false, Qle_bool_iff.
  split; [apply Qnot_le_lt | apply Qlt_not_le].
Qed.

Lemma max_Qmax (a b : Q) : Py.max a b == Qmax a b.
Proof.
  unfold Py.max. destruct (Py.ltb a b) eqn:E.
  - apply ltb_lt in E. symmetry. apply Q.max_r. lra.
  - apply ltb_ge in E. symmetry. apply Q.max_l. exact E.
Qed.

Lemma min_Qmin (a b : Q) : Py.min a b == Qmin a b.
Proof.
  unfold Py.min. destruct (Py.ltb b a) eqn:E.
  - apply ltb_lt in E. symmetry. apply Q.min_r. lra.
  - apply ltb_ge in E. symmetry. apply Q.min_l. exact E.
Qed.

Lemma max_ge_l (a b : Q) : a <= Py.max a b.
Proof.
  unfold Py.max. destruct (Py.ltb a b) eqn:E.
  - apply ltb_lt in E. lra.
  - lra.
Qed.

Lemma max_ge_r (a b : Q) : b <= Py.max a b.
Proof.
  unfold Py.max. destruct (Py.ltb a b) eqn:E.
  - lra.
  - apply ltb_ge in E. exact E.
Qed.

Lemma min_le_l (a b : Q) : Py.min a b <= a.
Proof.
  unfold Py.min. destruct (Py.ltb b a) eqn:E.
  - apply ltb_lt in E. lra.
  - lra.
Qed.

Lemma min_le_r (a b : Q) : Py.min a b <= b.
Proof.
  unfold Py.min. destruct (Py.ltb b a) eqn:E.
  - lra.
  - apply ltb_ge in E. exact E.
Qed.

Lemma div_some (a b : Q) : ~ b == 0 -> Py.div a b = Some (a / b).
Proof.
  intros Hb. unfold Py.div. destruct (Qeq_bool b 0) eqn:E.
  - apply Qeq_bool_iff in E. contradiction.
  - reflexivity.
Qed.

Lemma clip_range (p lo hi : Q) : lo <= hi -> lo <= Py.clip p lo hi <= hi.
Proof.
  intros Hle. unfold Py.clip. split.
  - unfold Py.min. destruct (Py.ltb hi (Py.max p lo)) eqn:E.
    + exact Hle.
    + apply max_ge_r.
  - apply min_le_r.
Qed.

Lemma clip_idempotent (p lo hi : Q) :
  Py.clip (Py.clip p lo hi) lo hi = Py.clip p lo hi.
Proof.
  unfold Py.clip, Py.min, Py.max.
  destruct (Py.ltb p lo) eqn:E1; destruct (Py.ltb lo lo) eqn:E2;
    destruct (Py.ltb hi lo) eqn:E3; destruct (Py.ltb hi p) eqn:E4;
    destruct (Py.ltb hi hi) eqn:E5;
    rewrite ?E1, ?E2, ?E3, ?E4, ?E5; try reflexivity;
    rewrite ?ltb_lt, ?ltb_ge in *; exfalso; lra.
Qed.

End PyFacts.

(** ** The model on the inputs of the repository's own tests and demos *)

Section Examples.

Let engine := EV.mkEngine EV.default_config.

(** [test_probability_clamping]. *)
Example clamp_below : EV.clamp_probability engine (-1) = 1e-6.
Proof. reflexivity. Qed.

Example clamp_above : EV.clamp_probability engine 2 = 0.999999.
Proof. reflexivity. Qed.

Example clamp_inside : EV.clamp_probability engine 0.5 = 0.5.
Proof. reflexivity. Qed.

(** [test_ev_cash_hold], edge case [p_rug = 0]: the value is below
    [2.0 * 1.1] by 1.19e-6. *)
Example ev_cash_hold_test_gap :
  2 * 1.1 - EV.ev_cash_hold engine 0 2 (Some EV.test_config) == 1.19e-6.
Proof. reflexivity. Qed.

(** [p5 = 0.1, x = 2.0]: HOLD. *)
Example best_action_hold :
  option_map EV.action (EV.best_action engine 0.1 0.2 2 1000 None) = Some EV.HOLD.
Proof. vm_compute. reflexivity. Qed.

(** [p5 = 0.95, x = 1.5] with no bankroll: CASH. *)
Example best_action_cash :
  option_map EV.action (EV.best_action engine 0.95 0.1 1.5 0 None) = Some EV.CASH.
Proof. vm_compute. reflexivity. Qed.

(** The demo of [ev.py]: [p5 = 0.3, p10 = 0.5, x = 2.5, bankroll = 1000]
    arms the sidebet (EV 14.6 against 0.0485 for HOLD). *)
Example best_action_sidebet :
  option_map EV.action (EV.best_action engine 0.3 0.5 2.5 1000 None)
  = Some EV.ARM_SIDEBET.
Proof. vm_compute. reflexivity. Qed.

(** The demo of [bankroll.py]: edge 0.6 at odds 2.0 is a Kelly fraction of
    0.2, halved to 0.1 and capped at 0.05. *)
Example size_bet_demo :
  exists v, Bankroll.size_bet Bankroll.default_manager 0.6 2 = Some v /\ v == 0.05.
Proof. eexists. split; reflexivity. Qed.

Example update_balance_demo :
  let self := fst (Bankroll.update_balance Bankroll.default_manager 50 50) in
  Bankroll.wins (Bankroll.state self) = 1%Z
  /\ Bankroll.total_bets (Bankroll.state self) = 1%Z
  /\ Bankroll.balance (Bankroll.state self) == 1050
  /\ Bankroll.max_balance (Bankroll.state self) == 1050
  /\ Bankroll.min_balance (Bankroll.state self) == 1000.
Proof. repeat split. Qed.

(** Of three sweep results the second is dominated by the first; the third
    trades a lower return for a smaller drawdown and stays. *)
Example pareto_demo :
  map Tuner.cash_threshold
      (Tuner.find_pareto_optimal
         [Tuner.mkSweep 0.15 0.25 0.02 1.5 0.1 0.2 12 1020;
          Tuner.mkSweep 0.2 0.25 0.01 1.2 0.2 0.4 9 1010;
          Tuner.mkSweep 0.25 0.25 0.01 1.8 0.05 0.1 7 1010])
  = [0.25; 0.15].
Proof. vm_compute. reflexivity. Qed.

End Examples.

(** ** EVEngine: probability clamping *)

(** C9: for every [p] the clamped probability lies between [min_probability]
    and [max_probability] (the bounds of a configuration are ordered), and
    clamping a clamped probability changes nothing. *)
Theorem clamp_probability_range_idempotent (self : EV.EVEngine) (p : Q) :
  EV.min_probability (EV.config self) <= EV.max_probability (EV.config self) ->
  (EV.min_probability (EV.config self) <= EV.clamp_probability self p
   /\ EV.clamp_probability self p <= EV.max_probability (EV.config self))
  /\ EV.clamp_probability self (EV.clamp_probability self p)
     = EV.clamp_probability self p.
Proof.
  intros Hle. split.
  - apply clip_range. exact Hle.
  - apply clip_idempotent.
Qed.

Lemma clamp_probability_default_witness :
  let self := EV.mkEngine EV.default_config in
  (1e-6 <= EV.clamp_probability self (-5)
   /\ EV.clamp_probability self (-5) <= 0.999999)
  /\ EV.clamp_probability self (EV.clamp_probability self (-5))
     = EV.clamp_probability self (-5).
Proof.
  apply (clamp_probability_range_idempotent (EV.mkEngine EV.default_config) (-5)).
  vm_compute. discriminate.
Defined.

(** ** BankrollManager *)

Section BankrollFacts.
Import Bankroll.

Lemma new_state_ok (initial : Q) :
  tallies_ok (new_state initial) /\ extrema_ok (new_state initial).
Proof.
  unfold tallies_ok, extrema_ok. simpl. repeat split; lra.
Qed.

Lemma update_state_tallies (s : State) (result : Q) :
  tallies_ok s -> tallies_ok (update_state s result).
Proof.
  unfold tallies_ok, update_state. simpl. intros H.
  destruct (Py.ltb 0 result); lia.
Qed.

(** The extrema bracket the balance after an update whatever the state
    before it was. *)
Lemma update_state_extrema (s : State) (result : Q) :
  extrema_ok (update_state s result).
Proof.
  unfold extrema_ok, update_state. simpl. split.
  - apply min_le_r.
  - apply max_ge_r.
Qed.

Lemma update_balance_state (self : BankrollManager) (bet_amount result : Q) :
  state (fst (update_balance self bet_amount result))
  = update_state (state self) result.
Proof. reflexivity. Qed.

Lemma run_updates_ok (calls : list (Q * Q)) :
  forall self : BankrollManager,
    tallies_ok (state self) -> extrema_ok (state self) ->
    tallies_ok (state (run_updates self calls))
    /\ extrema_ok (state (run_updates self calls)).
Proof.
  induction calls as [|[bet_amount result] rest IH]; intros self Ht He.
  - split; assumption.
  - cbn [run_updates]. apply IH; rewrite update_balance_state.
    + apply update_state_tallies. exact Ht.
    + apply update_state_extrema.
Qed.

Lemma size_bet_guard (edge odds : Q) :
  Py.leb edge 0 || Py.leb 1 edge || Py.leb odds 1 = true
  <-> (edge <= 0 \/ 1 <= edge \/ odds <= 1).
Proof.
  rewrite !orb_true_iff, !leb_le. tauto.
Qed.

End BankrollFacts.

(** C1: starting from a freshly created bankroll, after any finite sequence of
    [update_balance] calls (with arbitrary bet amounts and results) the state
    satisfies [wins + losses = total_bets] and
    [min_balance <= balance <= max_balance]. *)
Theorem update_balance_invariant
  (initial kelly max_loss_pct cap_pct : Q) (calls : list (Q * Q)) :
  let s := Bankroll.state
             (Bankroll.run_updates
                (Bankroll.init initial kelly max_loss_pct cap_pct) calls) in
  (Bankroll.wins s + Bankroll.losses s = Bankroll.total_bets s)%Z
  /\ Bankroll.min_balance s <= Bankroll.balance s
  /\ Bankroll.balance s <= Bankroll.max_balance s.
Proof.
  intros s.
  destruct (run_updates_ok calls (Bankroll.init initial kelly max_loss_pct cap_pct))
    as [Ht He]; try apply new_state_ok.
  exact (conj Ht He).
Qed.

(** C4: [size_bet] never raises; it returns 0 whenever [edge <= 0],
    [edge >= 1] or [odds <= 1]; for every other input it returns the Kelly
    fraction [(b*p - q)/b] times [kelly_fraction] clamped to
    [[0, bet_size_cap]], which is non-negative and at most [bet_size_cap]
    (a cap is a non-negative fraction). *)
Theorem size_bet_spec (self : Bankroll.BankrollManager) (edge odds : Q) :
  0 <= Bankroll.bet_size_cap self ->
  exists v : Q,
    Bankroll.size_bet self edge odds = Some v
    /\ ((edge <= 0 \/ 1 <= edge \/ odds <= 1) -> v = 0)
    /\ (~ (edge <= 0 \/ 1 <= edge \/ odds <= 1) ->
        v == Qmax 0 (Qmin (((odds - 1) * edge - (1 - edge)) / (odds - 1)
                           * Bankroll.kelly_fraction self)
                          (Bankroll.bet_size_cap self)))
    /\ 0 <= v
    /\ v <= Bankroll.bet_size_cap self.
Proof.
  intros Hcap. unfold Bankroll.size_bet.
  destruct (Py.leb edge 0 || Py.leb 1 edge || Py.leb odds 1) eqn:G.
  - exists 0. repeat split; try lra.
    intros Hn. apply size_bet_guard in G. contradiction.
  - assert (Hodds : 1 < odds).
    { rewrite !orb_false_iff in G. destruct G as [_ G]. apply leb_gt in G. exact G. }
    rewrite div_some by lra.
    eexists. split; [reflexivity|]. repeat split.
    + intros Hg. apply size_bet_guard in Hg. congruence.
    + intros _. rewrite max_Qmax, min_Qmin. reflexivity.
    + apply max_ge_l.
    + unfold Py.max.
      match goal with |- context [Py.ltb 0 ?m] => destruct (Py.ltb 0 m) end.
      * apply min_le_r.
      * exact Hcap.
Qed.

Lemma size_bet_spec_witness :
  exists v : Q,
    Bankroll.size_bet Bankroll.default_manager 0.6 2 = Some v
    /\ ((0.6 <= 0 \/ 1 <= 0.6 \/ 2 <= 1) -> v = 0)
    /\ (~ (0.6 <= 0 \/ 1 <= 0.6 \/ 2 <= 1) ->
        v == Qmax 0 (Qmin (((2 - 1) * 0.6 - (1 - 0.6)) / (2 - 1)
                           * Bankroll.kelly_fraction Bankroll.default_manager)
                          (Bankroll.bet_size_cap Bankroll.default_manager)))
    /\ 0 <= v
    /\ v <= Bankroll.bet_size_cap Bankroll.default_manager.
Proof.
  apply (size_bet_spec Bankroll.default_manager 0.6 2).
  vm_compute. discriminate.
Defined.

(** C5, as stated, fails: the daily-loss ratio is compared as a percentage.
    The manager below has
    lost 300 of 1000, that is 42.86 percent of the 700 left, above the cap of
    20 percent; yet [daily_loss / balance] = 0.4286 is below 20. *)
Lemma daily_loss_cap_plain_ratio_fails :
  let self := Bankroll.run_updates Bankroll.default_manager [(300, -300)] in
  ~ (Bankroll.apply_daily_loss_cap self = Some true
     <-> (0 < Bankroll.balance (Bankroll.state self)
          /\ Bankroll.daily_loss (Bankroll.state self)
             / Bankroll.balance (Bankroll.state self)
             < Bankroll.max_daily_loss_pct self)).
Proof.
  intros self [_ H].
  assert (E : Bankroll.apply_daily_loss_cap self = Some true).
  { apply H. split; reflexivity. }
  vm_compute in E. discriminate E.
Qed.

(** C5 (amended): [apply_daily_loss_cap] never raises (the balance it divides
    by is positive), and returns true iff [balance > 0] and
    [(daily_loss / balance) * 100 < max_daily_loss_pct]; in particular it
    returns false whenever [balance <= 0]. *)
Theorem apply_daily_loss_cap_spec (self : Bankroll.BankrollManager) :
  exists b : bool,
    Bankroll.apply_daily_loss_cap self = Some b
    /\ (b = true <->
        (0 < Bankroll.balance (Bankroll.state self)
         /\ Bankroll.daily_loss (Bankroll.state self)
            / Bankroll.balance (Bankroll.state self) * 100
            < Bankroll.max_daily_loss_pct self))
    /\ (Bankroll.balance (Bankroll.state self) <= 0 -> b = false).
Proof.
  unfold Bankroll.apply_daily_loss_cap.
  destruct (Py.leb (Bankroll.balance (Bankroll.state self)) 0) eqn:G.
  - apply leb_le in G. exists false. repeat split; try discriminate.
    intros [Hpos _]. lra.
  - apply leb_gt in G. rewrite div_some by lra.
    eexists. split; [reflexivity|]. split.
    + rewrite ltb_lt. tauto.
    + intros Hle. lra.
Qed.

(** ** EVEngine: expected values *)

Section EVFacts.
Import EV.

Lemma clamp_probability_zero (self : EVEngine) :
  0 <= min_probability (config self) ->
  min_probability (config self) <= max_probability (config self) ->
  clamp_probability self 0 == min_probability (config self).
Proof.
  intros H0 Hle. unfold clamp_probability, Py.clip.
  rewrite min_Qmin, max_Qmax.
  rewrite (Q.max_r 0 _ H0). apply Q.min_l. exact Hle.
Qed.

Lemma ev_cash_hold_unfold (self : EVEngine) (p x : Q) (cfg : option EVConfig) :
  ev_cash_hold self p x cfg
  = (1 - clamp_probability self p)
    * (x * future_gain_multiplier_if_survive (cfg_or_self self cfg))
    + clamp_probability self p * safety_floor_x (cfg_or_self self cfg).
Proof. reflexivity. Qed.

End EVFacts.

(** With the default configuration a rug probability of 0 is clamped to 1e-6,
    so holding at [x = 2] is worth [0.999999 * 2.3 + 0.000001 * 1.02], not
    [2.3]. *)
Lemma ev_cash_hold_zero_not_pure_survival :
  ~ (EV.ev_cash_hold (EV.mkEngine EV.default_config) 0 2 None
     == 2 * EV.future_gain_multiplier_if_survive EV.default_config).
Proof.
  vm_compute. discriminate.
Qed.

(** What [ev_cash_hold] computes at a rug probability of 0: the probability
    is clamped up to [min_probability] (for bounds
    [0 <= min_probability <= max_probability]), so the value is
    [(1 - min_probability) * x * future_gain_multiplier
     + min_probability * safety_floor_x]. *)
Lemma ev_cash_hold_zero (self : EV.EVEngine) (x : Q) (cfg : option EV.EVConfig) :
  0 <= EV.min_probability (EV.config self) ->
  EV.min_probability (EV.config self) <= EV.max_probability (EV.config self) ->
  EV.ev_cash_hold self 0 x cfg
  == (1 - EV.min_probability (EV.config self))
     * (x * EV.future_gain_multiplier_if_survive (EV.cfg_or_self self cfg))
     + EV.min_probability (EV.config self)
       * EV.safety_floor_x (EV.cfg_or_self self cfg).
Proof.
  intros H0 Hle. rewrite ev_cash_hold_unfold.
  rewrite (clamp_probability_zero self H0 Hle). reflexivity.
Qed.

Lemma ev_cash_hold_zero_witness :
  EV.ev_cash_hold (EV.mkEngine EV.default_config) 0 2 (Some EV.test_config)
  == (1 - 1e-6) * (2 * 1.1) + 1e-6 * 1.01.
Proof.
  apply (ev_cash_hold_zero (EV.mkEngine EV.default_config) 2 (Some EV.test_config)).
  - vm_compute. discriminate.
  - vm_compute. discriminate.
Defined.

(** C2: the code misses the claim at the input of the repository's own test.
    [tests/test_ev.py] expects [ev_cash_hold(0.0, 2.0, test_config)] to be
    [2.0 * 1.1] to six decimal places; the engine clamps the probability 0
    to 1e-6 and returns [0.999999 * 2.2 + 0.000001 * 1.01], which is
    between 1.1e-6 and 1.2e-6 below [2.2], more than the half unit of the
    sixth place that [assertAlmostEqual] tolerates. *)
Theorem ev_cash_hold_zero_misses_test :
  let v := EV.ev_cash_hold (EV.mkEngine EV.default_config) 0 2
                           (Some EV.test_config) in
  let expected := 2 * EV.future_gain_multiplier_if_survive EV.test_config in
  v = (1 - 1e-6) * (2 * 1.1) + 1e-6 * 1.01
  /\ ~ v == expected
  /\ 0.0000005 < expected - v
  /\ 0.0000011 < expected - v
  /\ expected - v < 0.0000012.
Proof.
  cbv zeta. split; [reflexivity|]. split; [vm_compute; discriminate|].
  repeat split.
Qed.

(** ** The descending stable sort *)

Section SortFacts.
Context {A : Type} (key : A -> Q).

Lemma insert_desc_perm (x : A) (l : list A) :
  Permutation (x :: l) (Py.insert_desc key x l).
Proof.
  induction l as [|y l IH]; simpl.
  - apply Permutation_refl.
  - destruct (Py.ltb (key x) (key y)).
    + eapply perm_trans; [apply perm_swap|]. apply perm_skip. exact IH.
    + apply Permutation_refl.
Qed.

Lemma sort_desc_perm (l : list A) : Permutation l (Py.sort_desc key l).
Proof.
  induction l as [|x l IH]; simpl.
  - apply perm_nil.
  - eapply perm_trans; [|apply insert_desc_perm]. apply perm_skip. exact IH.
Qed.

Lemma sort_desc_In (l : list A) (y : A) :
  In y (Py.sort_desc key l) <-> In y l.
Proof.
  split; apply Permutation_in;
    [apply Permutation_sym|]; apply sort_desc_perm.
Qed.

Lemma sort_desc_length (l : list A) :
  List.length (Py.sort_desc key l) = List.length l.
Proof.
  symmetry. apply Permutation_length, sort_desc_perm.
Qed.

Lemma insert_desc_sorted (x : A) (l : list A) :
  StronglySorted (desc key) l -> StronglySorted (desc key) (Py.insert_desc key x l).
Proof.
  induction 1 as [|y l Hs IH Hall]; simpl.
  - constructor; constructor.
  - destruct (Py.ltb (key x) (key y)) eqn:E.
    + apply ltb_lt in E. constructor; [exact IH|].
      apply Forall_forall. intros z Hz.
      apply (Permutation_in _ (Permutation_sym (insert_desc_perm x l))) in Hz.
      destruct Hz as [<-|Hz].
      * unfold desc. lra.
      * rewrite Forall_forall in Hall. apply Hall. exact Hz.
    + apply ltb_ge in E. constructor.
      * constructor; assumption.
      * constructor; [exact E|].
        rewrite Forall_forall in *. intros z Hz.
        specialize (Hall z Hz). unfold desc in *. lra.
Qed.

Lemma sort_desc_sorted (l : list A) : StronglySorted (desc key) (Py.sort_desc key l).
Proof.
  induction l as [|x l IH]; simpl.
  - constructor.
  - apply insert_desc_sorted. exact IH.
Qed.

(** Stability: the entries of any one key value come out in the order they
    went in. *)
Lemma insert_desc_stable (k : Q) (x : A) (l : list A) :
  filter (fun y => Qeq_bool (key y) k) (Py.insert_desc key x l)
  = filter (fun y => Qeq_bool (key y) k) (x :: l).
Proof.
  induction l as [|y l IH]; [reflexivity|].
  cbn [Py.insert_desc]. destruct (Py.ltb (key x) (key y)) eqn:E; [|reflexivity].
  apply ltb_lt in E. cbn [filter] in *. rewrite IH.
  destruct (Qeq_bool (key x) k) eqn:Ex; destruct (Qeq_bool (key y) k) eqn:Ey;
    try reflexivity.
  apply Qeq_bool_iff in Ex, Ey. lra.
Qed.

Lemma sort_desc_stable (k : Q) (l : list A) :
  filter (fun y => Qeq_bool (key y) k) (Py.sort_desc key l)
  = filter (fun y => Qeq_bool (key y) k) l.
Proof.
  induction l as [|x l IH]; [reflexivity|].
  cbn [Py.sort_desc]. rewrite insert_desc_stable. cbn [filter].
  rewrite IH. reflexivity.
Qed.

(** The head of a sorted list has the largest key. *)
Lemma sorted_head_max (x : A) (l : list A) :
  StronglySorted (desc key) (x :: l) -> forall y, In y (x :: l) -> key y <= key x.
Proof.
  intros Hs y [<-|Hy].
  - lra.
  - inversion Hs as [|? ? _ Hall]. subst.
    rewrite Forall_forall in Hall. apply Hall. exact Hy.
Qed.

End SortFacts.

(** ** EVEngine: ranking of the candidate actions *)

Section BestActionFacts.
Import EV.
Variables (self : EVEngine) (p5 p10 x bankroll : Q) (cfg : option EVConfig).

Let hv := ev_hold_vs_cash self p5 x cfg.
Let sb := ev_sidebet_vs_cash self p10 bankroll cfg.
Let thr := ev_threshold (cfg_or_self self cfg).

Let hold : Candidate := (HOLD, hv, "Hold for potential gains"%string).
Let cash : Candidate := (CASH, 0, "Cash out now"%string).
Let side : Candidate := (ARM_SIDEBET, sb, "Place sidebet for positive EV"%string).

Lemma candidates_cases :
  (Py.ltb thr sb = true
   /\ candidates self p5 p10 x bankroll cfg = [hold; cash; side])
  \/ (Py.ltb thr sb = false
      /\ candidates self p5 p10 x bankroll cfg = [hold; cash]).
Proof.
  unfold candidates. fold hv sb thr.
  destruct (Py.ltb thr sb); [left | right]; split; reflexivity.
Qed.

(** There are always at least two candidates, so [actions[0]] and
    [actions[1]] exist. *)
Lemma ranked_shape :
  exists best second rest,
    ranked self p5 p10 x bankroll cfg = best :: second :: rest.
Proof.
  unfold ranked.
  pose proof (sort_desc_length cand_ev (candidates self p5 p10 x bankroll cfg)) as Hlen.
  destruct (Py.sort_desc cand_ev (candidates self p5 p10 x bankroll cfg))
    as [|best [|second rest]].
  - destruct candidates_cases as [[_ E]|[_ E]]; rewrite E in Hlen; discriminate.
  - destruct candidates_cases as [[_ E]|[_ E]]; rewrite E in Hlen; discriminate.
  - eauto.
Qed.

Lemma best_action_unfold (best second : Candidate) (rest : list Candidate) :
  ranked self p5 p10 x bankroll cfg = best :: second :: rest ->
  exists r,
    best_action self p5 p10 x bankroll cfg = Some r
    /\ action r = cand_name best
    /\ evs r = evs_of (candidates self p5 p10 x bankroll cfg)
    /\ confidence r = confidence_of (cand_ev best - cand_ev second).
Proof.
  intros E. unfold best_action. rewrite E.
  eexists. split; [reflexivity|]. repeat split.
Qed.

(** A sidebet can only be ranked if it passed the threshold gate. *)
Lemma ranked_sidebet_gated (c : Candidate) :
  In c (ranked self p5 p10 x bankroll cfg) ->
  cand_name c = ARM_SIDEBET ->
  thr < sb.
Proof.
  unfold ranked. rewrite sort_desc_In.
  destruct candidates_cases as [[G E]|[G E]]; rewrite E.
  - intros _ _. apply ltb_lt. exact G.
  - intros [<-|[<-|[]]]; discriminate.
Qed.

(** A sidebet worth exactly nothing never comes first: the CASH entry has
    the same key and precedes it in the list that is sorted. *)
Lemma ranked_head_not_null_sidebet (best : Candidate) (rest : list Candidate) :
  ranked self p5 p10 x bankroll cfg = best :: rest ->
  sb == 0 ->
  cand_name best <> ARM_SIDEBET.
Proof.
  intros E Hsb Hname.
  assert (Hin : In best (candidates self p5 p10 x bankroll cfg)).
  { apply (sort_desc_In cand_ev). fold (ranked self p5 p10 x bankroll cfg).
    rewrite E. left. reflexivity. }
  pose proof (sort_desc_stable cand_ev 0 (candidates self p5 p10 x bankroll cfg))
    as Hst.
  fold (ranked self p5 p10 x bankroll cfg) in Hst. rewrite E in Hst.
  destruct candidates_cases as [[_ Ec]|[_ Ec]]; rewrite Ec in Hin, Hst.
  - destruct Hin as [<-|[<-|[<-|[]]]]; try discriminate.
    cbn [filter] in Hst. unfold cand_ev in Hst. cbn [fst snd side cash hold] in Hst.
    assert (Es : Qeq_bool sb 0 = true) by (apply Qeq_bool_iff; exact Hsb).
    rewrite Es in Hst. change (Qeq_bool 0 0) with true in Hst.
    destruct (Qeq_bool hv 0); discriminate Hst.
  - destruct Hin as [<-|[<-|[]]]; discriminate.
Qed.

Lemma sidebet_null_bankroll :
  bankroll == 0 ->
  bankroll * default_stake_pct (cfg_or_self self cfg) == 0 /\ sb == 0.
Proof.
  intros Hb. split.
  - rewrite Hb. ring.
  - unfold sb, ev_sidebet_vs_cash, ev_sidebet. cbv zeta. rewrite Hb. ring.
Qed.

Lemma confidence_of_clamp (d : Q) :
  confidence_of d == Qmin 0.95 (Qmax 0.05 (0.5 + 10 * d))
  /\ 0.05 <= confidence_of d /\ confidence_of d <= 0.95.
Proof.
  unfold confidence_of. repeat split.
  - rewrite min_Qmin, max_Qmax.
    assert (E : 0.5 + d * 10 == 0.5 + 10 * d) by ring.
    rewrite E. reflexivity.
  - unfold Py.min.
    destruct (Py.ltb (Py.max 0.05 (0.5 + d * 10)) 0.95).
    + apply max_ge_l.
    + vm_compute. discriminate.
  - apply min_le_l.
Qed.

End BestActionFacts.

(** C3: [best_action] always produces a result; it returns ARM_SIDEBET only
    if the sidebet EV it computed is strictly above [ev_threshold]; and for a
    bankroll of 0 the stake is 0, the sidebet EV is exactly 0 and the action
    is HOLD or CASH, never ARM_SIDEBET. *)
Theorem best_action_sidebet_gate
  (self : EV.EVEngine) (p5 p10 x bankroll : Q) (cfg : option EV.EVConfig) :
  exists r : EV.EVResult,
    EV.best_action self p5 p10 x bankroll cfg = Some r
    /\ (EV.action r = EV.ARM_SIDEBET ->
        EV.ev_threshold (EV.cfg_or_self self cfg)
        < EV.ev_sidebet self (EV.clamp_probability self p10)
            (bankroll * EV.default_stake_pct (EV.cfg_or_self self cfg))
            (Some (EV.cfg_or_self self cfg)))
    /\ (bankroll == 0 ->
        bankroll * EV.default_stake_pct (EV.cfg_or_self self cfg) == 0
        /\ EV.ev_sidebet self (EV.clamp_probability self p10)
             (bankroll * EV.default_stake_pct (EV.cfg_or_self self cfg))
             (Some (EV.cfg_or_self self cfg)) == 0
        /\ EV.action r <> EV.ARM_SIDEBET
        /\ (EV.action r = EV.HOLD \/ EV.action r = EV.CASH)).
Proof.
  destruct (ranked_shape self p5 p10 x bankroll cfg) as (best & second & rest & E).
  destruct (best_action_unfold self p5 p10 x bankroll cfg best second rest E)
    as (r & Hr & Hact & _ & _).
  exists r. split; [exact Hr|]. rewrite Hact. split.
  - intros Hname.
    apply (ranked_sidebet_gated self p5 p10 x bankroll cfg best); [|exact Hname].
    rewrite E. left. reflexivity.
  - intros Hb.
    destruct (sidebet_null_bankroll self p10 bankroll cfg Hb) as [Hstake Hsb].
    split; [exact Hstake|]. split; [exact Hsb|].
    assert (Hne : EV.cand_name best <> EV.ARM_SIDEBET).
    { apply (ranked_head_not_null_sidebet self p5 p10 x bankroll cfg best
               (second :: rest) E Hsb). }
    split; [exact Hne|].
    assert (Hin : In best (EV.candidates self p5 p10 x bankroll cfg)).
    { apply (sort_desc_In EV.cand_ev).
      fold (EV.ranked self p5 p10 x bankroll cfg). rewrite E. left. reflexivity. }
    destruct (candidates_cases self p5 p10 x bankroll cfg) as [[_ Ec]|[_ Ec]];
      rewrite Ec in Hin; simpl in Hin;
      repeat (destruct Hin as [<-|Hin]; [auto|]); try contradiction.
Qed.

(** C8: [best_action] ranks at least two candidates, the first with the
    largest EV and the second with the largest EV of the others, and its
    confidence is [clamp(0.5 + 10 * (best EV - second-best EV), 0.05, 0.95)],
    hence between 0.05 and 0.95. *)
Theorem best_action_confidence
  (self : EV.EVEngine) (p5 p10 x bankroll : Q) (cfg : option EV.EVConfig) :
  exists (best second : EV.Candidate) (rest : list EV.Candidate) (r : EV.EVResult),
    EV.ranked self p5 p10 x bankroll cfg = best :: second :: rest
    /\ Permutation (EV.candidates self p5 p10 x bankroll cfg)
                   (best :: second :: rest)
    /\ (forall c, In c (EV.candidates self p5 p10 x bankroll cfg) ->
                  EV.cand_ev c <= EV.cand_ev best)
    /\ (forall c, In c (second :: rest) -> EV.cand_ev c <= EV.cand_ev second)
    /\ EV.best_action self p5 p10 x bankroll cfg = Some r
    /\ EV.confidence r
       == Qmin 0.95 (Qmax 0.05 (0.5 + 10 * (EV.cand_ev best - EV.cand_ev second)))
    /\ 0.05 <= EV.confidence r
    /\ EV.confidence r <= 0.95.
Proof.
  destruct (ranked_shape self p5 p10 x bankroll cfg) as (best & second & rest & E).
  destruct (best_action_unfold self p5 p10 x bankroll cfg best second rest E)
    as (r & Hr & _ & _ & Hconf).
  exists best, second, rest, r.
  pose proof (sort_desc_sorted EV.cand_ev (EV.candidates self p5 p10 x bankroll cfg))
    as Hs.
  pose proof (sort_desc_perm EV.cand_ev (EV.candidates self p5 p10 x bankroll cfg))
    as Hp.
  fold (EV.ranked self p5 p10 x bankroll cfg) in Hs, Hp. rewrite E in Hs, Hp.
  split; [exact E|]. split; [exact Hp|]. split.
  - intros c Hc. apply (sorted_head_max EV.cand_ev best (second :: rest) Hs).
    apply (Permutation_in _ Hp). exact Hc.
  - split.
    + inversion Hs as [|? ? Hs' _]. subst.
      apply (sorted_head_max EV.cand_ev second rest Hs').
    + split; [exact Hr|]. rewrite Hconf. apply confidence_of_clamp.
Qed.

(** ** RegimeDetector *)

Section RegimeFacts.
Import Regime.

Lemma nan_ltb_below (m : option Q) (t : Q) :
  nan_ltb m t = true <-> mean_below m t.
Proof.
  unfold nan_ltb, mean_below. destruct m as [v|].
  - rewrite ltb_lt. split.
    + intros H. exists v. split; [reflexivity | exact H].
    + intros (w & E & H). injection E as <-. exact H.
  - split; [discriminate|]. intros (w & E & _). discriminate E.
Qed.

Lemma nan_gtb_above (m : option Q) (t : Q) :
  nan_gtb m t = true <-> mean_above m t.
Proof.
  unfold nan_gtb, mean_above. destruct m as [v|].
  - rewrite ltb_lt. split.
    + intros H. exists v. split; [reflexivity | exact H].
    + intros (w & E & H). injection E as <-. exact H.
  - split; [discriminate|]. intros (w & E & _). discriminate E.
Qed.

Lemma below_not_above (m : option Q) (lo hi : Q) :
  lo <= hi -> mean_below m lo -> ~ mean_above m hi.
Proof.
  intros Hle (v & E & Hv) (w & E' & Hw).
  rewrite E in E'. injection E' as <-. lra.
Qed.

(** When every cell is present the mean is the sum over the row count. *)
Lemma mean_all_present (vs : list Q) :
  vs <> [] ->
  mean (map Some vs) = Some (sum vs / inject_Z (Z.of_nat (List.length vs))).
Proof.
  intros Hne. unfold mean.
  assert (E : present (map Some vs) = vs).
  { unfold present. induction vs as [|v vs IH]; [reflexivity|].
    simpl. f_equal. destruct vs as [|w ws]; [reflexivity|].
    apply IH. discriminate. }
  rewrite E. destruct vs; [contradiction | reflexivity].
Qed.

End RegimeFacts.

(** C6: a window with fewer than [min_rounds_per_regime] rows is NORMAL
    whatever its statistics; a window with at least that many rows is LOW_VOL
    iff the mean volatility and the mean slope magnitude are both below their
    low thresholds, HIGH_VOL iff either mean exceeds its high threshold, and
    NORMAL otherwise (each low threshold is at most its high threshold). *)
Theorem detect_regime_spec (cfg : Regime.RegimeConfig) (data : list Regime.Row) :
  Regime.vol_low_threshold cfg <= Regime.vol_high_threshold cfg ->
  Regime.slope_low_threshold cfg <= Regime.slope_high_threshold cfg ->
  let avg_vol := Regime.mean (map Regime.volatility data) in
  let avg_slope := Regime.mean (map Regime.slope_magnitude data) in
  let calm := mean_below avg_vol (Regime.vol_low_threshold cfg)
              /\ mean_below avg_slope (Regime.slope_low_threshold cfg) in
  let hot := mean_above avg_vol (Regime.vol_high_threshold cfg)
             \/ mean_above avg_slope (Regime.slope_high_threshold cfg) in
  ((Z.of_nat (List.length data) < Regime.min_rounds_per_regime cfg)%Z ->
   Regime.detect_regime cfg data = Regime.normal)
  /\ ((Regime.min_rounds_per_regime cfg <= Z.of_nat (List.length data))%Z ->
      (Regime.detect_regime cfg data = Regime.low_vol <-> calm)
      /\ (Regime.detect_regime cfg data = Regime.high_vol <-> hot)
      /\ (Regime.detect_regime cfg data = Regime.normal <-> ~ calm /\ ~ hot)).
Proof.
  intros Hvol Hslope avg_vol avg_slope calm hot.
  unfold Regime.detect_regime. fold avg_vol avg_slope. split.
  - intros Hlt. apply Z.ltb_lt in Hlt. rewrite Hlt. reflexivity.
  - intros Hge. apply Z.ltb_ge in Hge. rewrite Hge.
    assert (Hcalm : Regime.nan_ltb avg_vol (Regime.vol_low_threshold cfg)
                    && Regime.nan_ltb avg_slope (Regime.slope_low_threshold cfg)
                    = true <-> calm).
    { rewrite andb_true_iff, !nan_ltb_below. reflexivity. }
    assert (Hhot : Regime.nan_gtb avg_vol (Regime.vol_high_threshold cfg)
                   || Regime.nan_gtb avg_slope (Regime.slope_high_threshold cfg)
                   = true <-> hot).
    { rewrite orb_true_iff, !nan_gtb_above. reflexivity. }
    assert (Hexcl : calm -> ~ hot).
    { intros [Hv Hs] [Ha|Ha].
      - exact (below_not_above _ _ _ Hvol Hv Ha).
      - exact (below_not_above _ _ _ Hslope Hs Ha). }
    destruct (Regime.nan_ltb avg_vol (Regime.vol_low_threshold cfg)
              && Regime.nan_ltb avg_slope (Regime.slope_low_threshold cfg)).
    + assert (Hc : calm) by (apply Hcalm; reflexivity).
      split; [split; [intros _; exact Hc | reflexivity]|].
      split; (split; [discriminate|]).
      * intros Hh. exfalso. exact (Hexcl Hc Hh).
      * intros [Hn _]. contradiction.
    + assert (Hc : ~ calm) by (intros Hc; apply Hcalm in Hc; discriminate).
      destruct (Regime.nan_gtb avg_vol (Regime.vol_high_threshold cfg)
                || Regime.nan_gtb avg_slope (Regime.slope_high_threshold cfg)).
      * assert (Hh : hot) by (apply Hhot; reflexivity).
        split; [split; [discriminate | contradiction]|].
        split; [split; [intros _; exact Hh | reflexivity]|].
        split; [discriminate|]. intros [_ Hn]. contradiction.
      * assert (Hh : ~ hot) by (intros Hh; apply Hhot in Hh; discriminate).
        split; [split; [discriminate | contradiction]|].
        split; [split; [discriminate | contradiction]|].
        split; [intros _; exact (conj Hc Hh) | reflexivity].
Qed.

Lemma detect_regime_spec_witness :
  let data := repeat (Regime.mkRow (Some 0.4) (Some 0.01)) 50 in
  Regime.detect_regime Regime.default_config data = Regime.high_vol
  <-> (mean_above (Regime.mean (map Regime.volatility data)) 0.3
       \/ mean_above (Regime.mean (map Regime.slope_magnitude data)) 0.15).
Proof.
  intros data.
  refine (proj1 (proj2 (proj2 (detect_regime_spec Regime.default_config data _ _) _))).
  - vm_compute. discriminate.
  - vm_compute. discriminate.
  - vm_compute. discriminate.
Defined.

(** ** ThresholdTuner: the Pareto frontier *)

Section ParetoFacts.
Import Tuner.

Lemma dominates_iff (b a : SweepResult) :
  dominates b a = true <-> Dominates b a.
Proof.
  unfold dominates, Dominates.
  rewrite !andb_true_iff, !orb_true_iff, !leb_le, !ltb_lt. tauto.
Qed.

Lemma Dominates_irrefl (a : SweepResult) : ~ Dominates a a.
Proof.
  intros (_ & _ & _ & [H|[H|H]]); lra.
Qed.

Lemma Dominates_trans (c b a : SweepResult) :
  Dominates c b -> Dominates b a -> Dominates c a.
Proof.
  intros (H1 & H2 & H3 & H4) (K1 & K2 & K3 & K4).
  unfold Dominates. repeat split; lra.
Qed.

Lemma dominated_iff (results : list SweepResult) (a : SweepResult) :
  dominated results a = true <-> exists b, In b results /\ Dominates b a.
Proof.
  unfold dominated. rewrite existsb_exists.
  split; intros (b & Hb & Hd); exists b; split; try exact Hb;
    apply dominates_iff; exact Hd.
Qed.

(** The frontier is exactly the set of results no result dominates. *)
Lemma find_pareto_optimal_In (results : list SweepResult) (a : SweepResult) :
  In a (find_pareto_optimal results)
  <-> In a results /\ forall b, In b results -> ~ Dominates b a.
Proof.
  unfold find_pareto_optimal. destruct results as [|r0 rs].
  - simpl. tauto.
  - rewrite sort_desc_In, filter_In, negb_true_iff.
    rewrite <- not_true_iff_false, dominated_iff.
    split; intros [Hin Hnd]; (split; [exact Hin|]).
    + intros b Hb Hd. apply Hnd. exists b. split; assumption.
    + intros (b & Hb & Hd). exact (Hnd b Hb Hd).
Qed.


End ParetoFacts.

(** C7: the frontier returned by [find_pareto_optimal] holds no two results
    one of which dominates the other, and it is sorted by Sharpe ratio in
    descending order. *)
Theorem find_pareto_optimal_frontier (results : list Tuner.SweepResult) :
  (forall a b : Tuner.SweepResult,
      In a (Tuner.find_pareto_optimal results) ->
      In b (Tuner.find_pareto_optimal results) ->
      ~ Dominates b a)
  /\ StronglySorted
       (fun a b => Tuner.sharpe_ratio b <= Tuner.sharpe_ratio a)
       (Tuner.find_pareto_optimal results).
Proof.
  split.
  - intros a b Ha Hb.
    apply find_pareto_optimal_In in Ha. apply find_pareto_optimal_In in Hb.
    destruct Ha as [_ Hnd]. destruct Hb as [Hb _]. exact (Hnd b Hb).
  - unfold Tuner.find_pareto_optimal. destruct results as [|r0 rs].
    + constructor.
    + apply (sort_desc_sorted Tuner.sharpe_ratio).
Qed.



(** * Further properties of the code around the claims *)

(** ** BankrollManager: bookkeeping under every mutator *)

Section BankrollLedger.
Import Bankroll.

Lemma abs_nonneg (a : Q) : 0 <= Py.abs a.
Proof.
  unfold Py.abs. destruct (Py.ltb a 0) eqn:E.
  - apply ltb_lt in E. lra.
  - apply ltb_ge in E. exact E.
Qed.

Lemma new_state_ledger (initial : Q) : ledger_ok (new_state initial).
Proof.
  unfold ledger_ok, tallies_ok, extrema_ok. simpl.
  repeat split; try lia; try lra.
Qed.

Lemma update_state_ledger (s : State) (result : Q) :
  ledger_ok s -> ledger_ok (update_state s result).
Proof.
  intros (Ht & He & Hw & Hl & Hd & Hlo & Hhi).
  unfold ledger_ok. split; [apply update_state_tallies; exact Ht|].
  split; [apply update_state_extrema|].
  unfold update_state. cbn [wins losses daily_loss balance st_initial_balance
                            total_profit min_balance max_balance].
  pose proof (abs_nonneg result) as Ha.
  pose proof (min_le_l (min_balance s) (balance s + result)) as Hmin.
  pose proof (max_ge_l (max_balance s) (balance s + result)) as Hmax.
  destruct (Py.ltb 0 result); repeat split; try lia; try lra.
Qed.

Lemma call_ledger (self : BankrollManager) (c : Call) :
  ledger_ok (state self) -> ledger_ok (state (call self c)).
Proof.
  intros H. destruct c as [bet_amount result| |new_balance]; cbn [call].
  - rewrite update_balance_state. apply update_state_ledger. exact H.
  - destruct H as (Ht & He & Hw & Hl & Hd & Hlo & Hhi).
    unfold ledger_ok, tallies_ok, extrema_ok in *. simpl.
    repeat split; try tauto; lra.
  - unfold reset_bankroll. cbn [state with_state].
    apply (new_state_ledger
             (match new_balance with
              | Some b => b
              | None => initial_balance self
              end)).
Qed.

Lemma run_calls_ledger (calls : list Call) :
  forall self : BankrollManager,
    ledger_ok (state self) -> ledger_ok (state (run_calls self calls)).
Proof.
  unfold run_calls.
  induction calls as [|c rest IH]; intros self H; cbn [fold_left].
  - exact H.
  - apply IH. apply call_ledger. exact H.
Qed.

Lemma inject_Z_div_some (a n : Z) :
  (0 < n)%Z -> Py.div (inject_Z a) (inject_Z n) = Some (inject_Z a / inject_Z n).
Proof.
  intros Hn. apply div_some. intros E.
  assert (H : inject_Z 0 < inject_Z n) by (rewrite <- Zlt_Qlt; exact Hn).
  change (inject_Z 0) with 0 in H. lra.
Qed.

Lemma update_state_total_bets (s : State) (result : Q) :
  total_bets (update_state s result) = (total_bets s + 1)%Z.
Proof. reflexivity. Qed.

End BankrollLedger.

(** X1: from a fresh manager, any interleaving of [update_balance],
    [reset_daily_tracking] and [reset_bankroll] keeps
    [wins + losses = total_bets] and [min_balance <= balance <= max_balance]. *)
Theorem run_calls_invariant
  (initial kelly max_loss_pct cap_pct : Q) (calls : list Bankroll.Call) :
  let s := Bankroll.state
             (Bankroll.run_calls
                (Bankroll.init initial kelly max_loss_pct cap_pct) calls) in
  (Bankroll.wins s + Bankroll.losses s = Bankroll.total_bets s)%Z
  /\ Bankroll.min_balance s <= Bankroll.balance s
  /\ Bankroll.balance s <= Bankroll.max_balance s.
Proof.
  intros s.
  destruct (run_calls_ledger calls (Bankroll.init initial kelly max_loss_pct cap_pct))
    as (Ht & [Hlo Hhi] & _); [apply new_state_ledger|].
  exact (conj Ht (conj Hlo Hhi)).
Qed.

(** X2: over the same interleavings the daily loss is never negative, the
    win and loss counters are never negative, and the state's initial balance
    stays between the running minimum and maximum of the balance. *)
Theorem run_calls_bounds
  (initial kelly max_loss_pct cap_pct : Q) (calls : list Bankroll.Call) :
  let s := Bankroll.state
             (Bankroll.run_calls
                (Bankroll.init initial kelly max_loss_pct cap_pct) calls) in
  0 <= Bankroll.daily_loss s
  /\ (0 <= Bankroll.wins s)%Z
  /\ (0 <= Bankroll.losses s)%Z
  /\ Bankroll.min_balance s <= Bankroll.st_initial_balance s
  /\ Bankroll.st_initial_balance s <= Bankroll.max_balance s.
Proof.
  intros s.
  destruct (run_calls_ledger calls (Bankroll.init initial kelly max_loss_pct cap_pct))
    as (_ & _ & Hw & Hl & Hd & Hlo & Hhi); [apply new_state_ledger|].
  repeat split; assumption.
Qed.

Section BankrollCounts.
Import Bankroll.

Lemma run_updates_counts_from (calls : list (Q * Q)) :
  forall self : BankrollManager,
    let s := state (run_updates self calls) in
    total_bets s = (total_bets (state self) + Z.of_nat (List.length calls))%Z
    /\ wins s = (wins (state self)
                 + Z.of_nat (List.length (filter (fun c => Py.ltb 0 (snd c)) calls)))%Z
    /\ losses s = (losses (state self)
                   + Z.of_nat (List.length
                                 (filter (fun c => negb (Py.ltb 0 (snd c))) calls)))%Z
    /\ balance s = fold_left Qplus (map snd calls) (balance (state self)).
Proof.
  induction calls as [|[bet_amount result] rest IH]; intros self.
  - cbn. repeat split; lia.
  - cbn [run_updates]. cbn zeta in IH |- *.
    destruct (IH (fst (update_balance self bet_amount result)))
      as (Hb & Hw & Hl & Hbal).
    rewrite update_balance_state in Hb, Hw, Hl, Hbal.
    rewrite Hb, Hw, Hl, Hbal.
    unfold update_state.
    cbn [total_bets wins losses balance filter map snd fold_left List.length].
    destruct (Py.ltb 0 result); cbn [negb List.length];
      repeat split; try lia; reflexivity.
Qed.

End BankrollCounts.

(** X3: after [n] calls of [update_balance] on a fresh manager,
    [total_bets] is [n], [wins] counts exactly the calls with [result > 0],
    [losses] counts all the others (a result of exactly 0 is a loss), and the
    balance is the initial balance with the results added to it one at a
    time, in call order. *)
Theorem run_updates_counts
  (initial kelly max_loss_pct cap_pct : Q) (calls : list (Q * Q)) :
  let s := Bankroll.state
             (Bankroll.run_updates
                (Bankroll.init initial kelly max_loss_pct cap_pct) calls) in
  Bankroll.total_bets s = Z.of_nat (List.length calls)
  /\ Bankroll.wins s
     = Z.of_nat (List.length (filter (fun c => Py.ltb 0 (snd c)) calls))
  /\ Bankroll.losses s
     = Z.of_nat (List.length (filter (fun c => negb (Py.ltb 0 (snd c))) calls))
  /\ Bankroll.balance s = fold_left Qplus (map snd calls) initial.
Proof.
  intros s.
  destruct (run_updates_counts_from calls
              (Bankroll.init initial kelly max_loss_pct cap_pct))
    as (Hb & Hw & Hl & Hbal).
  repeat split; assumption.
Qed.

(** X4: [update_balance] raises ZeroDivisionError exactly when the manager's
    [initial_balance] is 0, and only after it has mutated the state; when it
    returns, the record carries the old balance, the new balance
    [old + result], a per-bet ROI of 0 for a non-positive old balance and
    [result / old * 100] otherwise. *)
Theorem update_balance_return
  (self : Bankroll.BankrollManager) (bet_amount result : Q) :
  let out := Bankroll.update_balance self bet_amount result in
  let old := Bankroll.balance (Bankroll.state self) in
  Bankroll.state (fst out) = Bankroll.update_state (Bankroll.state self) result
  /\ (Bankroll.initial_balance self == 0 -> snd out = None)
  /\ (~ Bankroll.initial_balance self == 0 ->
      exists info,
        snd out = Some info
        /\ Bankroll.old_balance info = old
        /\ Bankroll.new_balance info = old + result
        /\ Bankroll.profit info = result
        /\ (old <= 0 -> Bankroll.roi info = 0)
        /\ (0 < old -> Bankroll.roi info = result / old * 100)
        /\ Bankroll.total_roi info
           = (old + result - Bankroll.initial_balance self)
             / Bankroll.initial_balance self * 100).
Proof.
  intros out old. split; [reflexivity|].
  unfold out, Bankroll.update_balance. cbn [snd].
  fold old.
  assert (Hroi : exists roi_v,
             (if Py.ltb 0 old
              then match Py.div result old with
                   | Some r => Some (r * 100)
                   | None => None
                   end
              else Some 0) = Some roi_v
             /\ (old <= 0 -> roi_v = 0)
             /\ (0 < old -> roi_v = result / old * 100)).
  { destruct (Py.ltb 0 old) eqn:E.
    - apply ltb_lt in E. rewrite div_some by lra.
      eexists. split; [reflexivity|]. split; [intros; lra | reflexivity].
    - apply ltb_ge in E. exists 0. split; [reflexivity|].
      split; [reflexivity | intros; lra]. }
  destruct Hroi as (roi_v & -> & Hr0 & Hr1).
  split.
  - intros Hz. unfold Py.div at 1.
    apply Qeq_bool_iff in Hz. rewrite Hz. reflexivity.
  - intros Hnz. rewrite (div_some _ _ Hnz).
    rewrite update_state_total_bets.
    destruct (0 <? Bankroll.total_bets (Bankroll.state self) + 1)%Z eqn:Hpos.
    + apply Z.ltb_lt in Hpos. rewrite inject_Z_div_some by lia.
      eexists. split; [reflexivity|]. cbn.
      repeat split; assumption.
    + eexists. split; [reflexivity|]. cbn.
      repeat split; assumption.
Qed.

(** ** BankrollManager: bet sizing *)

Section BetSizing.
Import Bankroll.

(** The value [size_bet] returns, in closed form. *)
Lemma size_bet_value (self : BankrollManager) (edge odds : Q) :
  exists v,
    size_bet self edge odds = Some v
    /\ 0 <= v
    /\ ((edge <= 0 \/ 1 <= edge \/ odds <= 1) -> v = 0)
    /\ (0 < edge -> edge < 1 -> 1 < odds ->
        v = Py.max 0 (Py.min (((odds - 1) * edge - (1 - edge)) / (odds - 1)
                              * kelly_fraction self)
                             (bet_size_cap self))).
Proof.
  unfold size_bet.
  destruct (Py.leb edge 0 || Py.leb 1 edge || Py.leb odds 1) eqn:G.
  - exists 0. split; [reflexivity|]. split; [lra|]. split; [reflexivity|].
    intros H0 H1 Ho. apply size_bet_guard in G. lra.
  - assert (Hn : ~ (edge <= 0 \/ 1 <= edge \/ odds <= 1)).
    { intros H. apply size_bet_guard in H. congruence. }
    rewrite div_some by lra.
    eexists. split; [reflexivity|]. split; [apply max_ge_l|].
    split; [intros H; contradiction | reflexivity].
Qed.

End BetSizing.

(** X5: with a non-negative Kelly multiplier, [size_bet] never sizes a bet
    whose Kelly numerator [b*p - q] (with [b = odds - 1], [p = edge],
    [q = 1 - edge]) is not positive: such a bet gets exactly 0, and a
    positive size is returned only for [0 < edge < 1], [odds > 1] and a
    positive numerator. *)
Theorem size_bet_zero_without_edge
  (self : Bankroll.BankrollManager) (edge odds : Q) :
  0 <= Bankroll.kelly_fraction self ->
  exists v,
    Bankroll.size_bet self edge odds = Some v
    /\ ((odds - 1) * edge - (1 - edge) <= 0 -> v = 0)
    /\ (0 < v ->
        0 < edge /\ edge < 1 /\ 1 < odds
        /\ 0 < (odds - 1) * edge - (1 - edge)).
Proof.
  intros Hk.
  destruct (size_bet_value self edge odds) as (v & Hv & Hge & Hzero & Hval).
  exists v. split; [exact Hv|].
  assert (Hnum : (odds - 1) * edge - (1 - edge) <= 0 -> v = 0).
  { intros Hn.
    destruct (Qlt_le_dec 0 edge) as [H0|H0]; [|apply Hzero; tauto].
    destruct (Qlt_le_dec edge 1) as [H1|H1]; [|apply Hzero; tauto].
    destruct (Qlt_le_dec 1 odds) as [Ho|Ho]; [|apply Hzero; tauto].
    rewrite (Hval H0 H1 Ho).
    set (raw := ((odds - 1) * edge - (1 - edge)) / (odds - 1)).
    assert (Hraw : raw <= 0) by (apply Qle_shift_div_r; lra).
    pose proof (min_le_l (raw * Bankroll.kelly_fraction self)
                         (Bankroll.bet_size_cap self)) as Hmin.
    unfold Py.max.
    match goal with |- context [Py.ltb 0 ?m] => destruct (Py.ltb 0 m) eqn:E end;
      [|reflexivity].
    apply ltb_lt in E. exfalso. nra. }
  split; [exact Hnum|]. intros Hpos.
  destruct (Qlt_le_dec 0 edge) as [H0|H0];
    [|rewrite Hzero in Hpos by tauto; lra].
  destruct (Qlt_le_dec edge 1) as [H1|H1];
    [|rewrite Hzero in Hpos by tauto; lra].
  destruct (Qlt_le_dec 1 odds) as [Ho|Ho];
    [|rewrite Hzero in Hpos by tauto; lra].
  repeat split; try assumption.
  destruct (Qlt_le_dec 0 ((odds - 1) * edge - (1 - edge))) as [Hn|Hn];
    [exact Hn|].
  rewrite (Hnum Hn) in Hpos. lra.
Qed.

Lemma size_bet_zero_without_edge_witness :
  exists v,
    Bankroll.size_bet Bankroll.default_manager 0.1 4 = Some v
    /\ ((4 - 1) * 0.1 - (1 - 0.1) <= 0 -> v = 0)
    /\ (0 < v ->
        0 < 0.1 /\ 0.1 < 1 /\ 1 < 4 /\ 0 < (4 - 1) * 0.1 - (1 - 0.1)).
Proof.
  apply (size_bet_zero_without_edge Bankroll.default_manager 0.1 4).
  vm_compute. discriminate.
Defined.

(** X6: for a non-negative balance and a non-negative cap,
    [calculate_bet_amount] never raises and stakes between 0 and
    [bet_size_cap * balance]. *)
Theorem calculate_bet_amount_bounds
  (self : Bankroll.BankrollManager) (edge odds : Q) :
  0 <= Bankroll.bet_size_cap self ->
  0 <= Bankroll.balance (Bankroll.state self) ->
  exists amount,
    Bankroll.calculate_bet_amount self edge odds = Some amount
    /\ 0 <= amount
    /\ amount <= Bankroll.bet_size_cap self * Bankroll.balance (Bankroll.state self).
Proof.
  intros Hc Hb. unfold Bankroll.calculate_bet_amount.
  destruct (size_bet_value self edge odds) as (v & Hv & Hge & Hzero & Hval).
  rewrite Hv. eexists. split; [reflexivity|].
  assert (Hle : v <= Bankroll.bet_size_cap self).
  { destruct (Qlt_le_dec 0 edge) as [H0|H0]; [|rewrite Hzero by tauto; exact Hc].
    destruct (Qlt_le_dec edge 1) as [H1|H1]; [|rewrite Hzero by tauto; exact Hc].
    destruct (Qlt_le_dec 1 odds) as [Ho|Ho]; [|rewrite Hzero by tauto; exact Hc].
    rewrite (Hval H0 H1 Ho). unfold Py.max.
    match goal with |- context [Py.ltb 0 ?m] => destruct (Py.ltb 0 m) end.
    - apply min_le_r.
    - exact Hc. }
  split; nra.
Qed.

Lemma calculate_bet_amount_bounds_witness :
  exists amount,
    Bankroll.calculate_bet_amount Bankroll.default_manager 0.6 2 = Some amount
    /\ 0 <= amount
    /\ amount <= Bankroll.bet_size_cap Bankroll.default_manager
                 * Bankroll.balance (Bankroll.state Bankroll.default_manager).
Proof.
  apply (calculate_bet_amount_bounds Bankroll.default_manager 0.6 2);
    vm_compute; discriminate.
Defined.

(** ** BankrollManager: the daily-loss circuit breaker *)

Section CircuitBreaker.
Import Bankroll.

Lemma apply_daily_loss_cap_false (self : BankrollManager) :
  apply_daily_loss_cap self = Some false
  <-> (balance (state self) <= 0
       \/ (0 < balance (state self)
           /\ max_daily_loss_pct self
              <= daily_loss (state self) / balance (state self) * 100)).
Proof.
  unfold apply_daily_loss_cap.
  destruct (Py.leb (balance (state self)) 0) eqn:G.
  - apply leb_le in G. split; [intros _; left; exact G | reflexivity].
  - apply leb_gt in G. rewrite div_some by lra. split.
    + intros H. injection H as H. apply ltb_ge in H. right. split; assumption.
    + intros [H|[_ H]]; [lra|]. f_equal. apply ltb_ge. exact H.
Qed.

Lemma ratio_grows (dl b r : Q) :
  0 <= dl -> r <= 0 -> 0 < b + r -> dl / b <= (dl - r) / (b + r).
Proof.
  intros Hd Hr Hb.
  apply Qle_shift_div_l; [exact Hb|].
  assert (E : dl / b * (b + r) == dl * (b + r) / b) by (field; lra).
  rewrite E. apply Qle_shift_div_r; [lra|]. nra.
Qed.

End CircuitBreaker.

(** X7: the circuit breaker latches under losses: once
    [apply_daily_loss_cap] is false, an [update_balance] with a result that
    is not a win ([result <= 0]) leaves it false. *)
Theorem daily_loss_cap_latches
  (self : Bankroll.BankrollManager) (bet_amount result : Q) :
  0 <= Bankroll.daily_loss (Bankroll.state self) ->
  result <= 0 ->
  Bankroll.apply_daily_loss_cap self = Some false ->
  Bankroll.apply_daily_loss_cap
    (fst (Bankroll.update_balance self bet_amount result)) = Some false.
Proof.
  intros Hd Hr Hoff.
  apply apply_daily_loss_cap_false in Hoff.
  apply apply_daily_loss_cap_false.
  rewrite update_balance_state.
  unfold Bankroll.update_balance, Bankroll.update_state.
  cbn [fst Bankroll.with_state Bankroll.max_daily_loss_pct Bankroll.balance
       Bankroll.daily_loss].
  assert (Hw : Py.ltb 0 result = false) by (apply ltb_ge; exact Hr).
  rewrite Hw.
  assert (Ha : Py.abs result == - result).
  { unfold Py.abs. destruct (Py.ltb result 0) eqn:E; [reflexivity|].
    apply ltb_ge in E. lra. }
  set (b := Bankroll.balance (Bankroll.state self)) in *.
  set (dl := Bankroll.daily_loss (Bankroll.state self)) in *.
  destruct (Qlt_le_dec 0 (b + result)) as [Hpos|Hneg]; [|left; exact Hneg].
  right. split; [exact Hpos|].
  destruct Hoff as [Hb|[Hb Hcap]]; [lra|].
  rewrite Ha.
  assert (E : dl + - result == dl - result) by ring. rewrite E.
  pose proof (ratio_grows dl b result Hd Hr Hpos) as Hg.
  lra.
Qed.

Lemma daily_loss_cap_latches_witness :
  let self := Bankroll.run_updates Bankroll.default_manager [(300, -300)] in
  Bankroll.apply_daily_loss_cap
    (fst (Bankroll.update_balance self 10 (-10))) = Some false.
Proof.
  intros self. apply (daily_loss_cap_latches self 10 (-10)).
  - vm_compute. discriminate.
  - vm_compute. discriminate.
  - reflexivity.
Defined.

(** X8: right after [reset_daily_tracking] betting is allowed exactly when
    the balance and the configured cap are both positive. *)
Theorem reset_daily_tracking_reopens (self : Bankroll.BankrollManager) :
  exists b : bool,
    Bankroll.apply_daily_loss_cap (Bankroll.reset_daily_tracking self) = Some b
    /\ (b = true <-> (0 < Bankroll.balance (Bankroll.state self)
                      /\ 0 < Bankroll.max_daily_loss_pct self)).
Proof.
  unfold Bankroll.apply_daily_loss_cap, Bankroll.reset_daily_tracking.
  cbn [Bankroll.state Bankroll.with_state Bankroll.balance Bankroll.daily_loss
       Bankroll.max_daily_loss_pct].
  destruct (Py.leb (Bankroll.balance (Bankroll.state self)) 0) eqn:G.
  - apply leb_le in G. exists false. split; [reflexivity|].
    split; [discriminate | intros [H _]; lra].
  - apply leb_gt in G. rewrite div_some by lra.
    eexists. split; [reflexivity|]. rewrite ltb_lt.
    assert (E : 0 / Bankroll.balance (Bankroll.state self) * 100 == 0)
      by (field; lra).
    rewrite E. tauto.
Qed.

(** ** BankrollManager: the status report *)

Section StatusFacts.
Import Bankroll.

Lemma apply_daily_loss_cap_total (self : BankrollManager) :
  exists b, apply_daily_loss_cap self = Some b.
Proof.
  unfold apply_daily_loss_cap.
  destruct (Py.leb (balance (state self)) 0) eqn:G.
  - eauto.
  - apply leb_gt in G. rewrite div_some by lra. eauto.
Qed.

Lemma guarded_pct_positive (num den : Q) :
  exists v,
    guarded_pct (Py.ltb 0 den) num den = Some v
    /\ (den <= 0 -> v = 0)
    /\ (0 < den -> v = num / den * 100).
Proof.
  unfold guarded_pct. destruct (Py.ltb 0 den) eqn:E.
  - apply ltb_lt in E. rewrite div_some by lra.
    eexists. split; [reflexivity|]. split; [intros; lra | reflexivity].
  - apply ltb_ge in E. exists 0. split; [reflexivity|].
    split; [reflexivity | intros; lra].
Qed.

Lemma guarded_pct_count (a n : Z) :
  exists v, guarded_pct (0 <? n)%Z (inject_Z a) (inject_Z n) = Some v.
Proof.
  unfold guarded_pct. destruct (0 <? n)%Z eqn:E.
  - apply Z.ltb_lt in E. rewrite inject_Z_div_some by exact E. eauto.
  - eauto.
Qed.

Lemma drawdown_pct_range (peak cur : Q) :
  0 < peak -> cur <= peak ->
  0 <= (peak - cur) / peak * 100
  /\ (0 <= cur -> (peak - cur) / peak * 100 <= 100).
Proof.
  intros Hp Hc.
  assert (H0 : 0 <= (peak - cur) / peak).
  { apply Qle_shift_div_l; lra. }
  split; [lra|]. intros Hn.
  assert (H1 : (peak - cur) / peak <= 1).
  { apply Qle_shift_div_r; lra. }
  lra.
Qed.

End StatusFacts.

(** X9: [get_status] raises ZeroDivisionError exactly when the state's
    [initial_balance] is 0.  When it returns (for a balance not above the
    recorded peak), [can_bet] is the value of [apply_daily_loss_cap], the
    reported drawdown from the peak is at least 0 and, for a non-negative
    balance, at most 100 percent, and the daily-loss percentage is 0 for a
    non-positive balance. *)
Theorem get_status_spec (self : Bankroll.BankrollManager) :
  Bankroll.balance (Bankroll.state self)
  <= Bankroll.max_balance (Bankroll.state self) ->
  (Bankroll.st_initial_balance (Bankroll.state self) == 0 ->
   Bankroll.get_status self = None)
  /\ (~ Bankroll.st_initial_balance (Bankroll.state self) == 0 ->
      exists st,
        Bankroll.get_status self = Some st
        /\ Some (Bankroll.can_bet st) = Bankroll.apply_daily_loss_cap self
        /\ 0 <= Bankroll.max_drawdown st
        /\ (0 <= Bankroll.balance (Bankroll.state self) ->
            Bankroll.max_drawdown st <= 100)
        /\ (Bankroll.balance (Bankroll.state self) <= 0 ->
            Bankroll.status_daily_loss_pct st = 0)).
Proof.
  intros Hpeak. unfold Bankroll.get_status. split.
  - intros Hz. unfold Py.div at 1. apply Qeq_bool_iff in Hz. rewrite Hz.
    reflexivity.
  - intros Hnz. rewrite (div_some _ _ Hnz).
    destruct (guarded_pct_positive
                (Bankroll.daily_loss (Bankroll.state self))
                (Bankroll.balance (Bankroll.state self)))
      as (dl_pct & -> & Hdl0 & _).
    destruct (apply_daily_loss_cap_total self) as (cb & Hcb). rewrite Hcb.
    destruct (guarded_pct_count (Bankroll.wins (Bankroll.state self))
                                (Bankroll.total_bets (Bankroll.state self)))
      as (wr & ->).
    destruct (guarded_pct_positive
                (Bankroll.max_balance (Bankroll.state self)
                 - Bankroll.balance (Bankroll.state self))
                (Bankroll.max_balance (Bankroll.state self)))
      as (dd & -> & Hdd0 & Hdd1).
    eexists. split; [reflexivity|].
    cbn [Bankroll.can_bet Bankroll.max_drawdown Bankroll.status_daily_loss_pct].
    split; [reflexivity|].
    destruct (Qlt_le_dec 0 (Bankroll.max_balance (Bankroll.state self)))
      as [Hp|Hp].
    + rewrite (Hdd1 Hp).
      destruct (drawdown_pct_range _ _ Hp Hpeak) as [Hlo Hhi].
      repeat split; assumption.
    + rewrite (Hdd0 Hp). repeat split; try lra. exact Hdl0.
Qed.

Lemma get_status_spec_witness :
  let self := Bankroll.run_updates Bankroll.default_manager [(300, -300)] in
  exists st,
    Bankroll.get_status self = Some st
    /\ Some (Bankroll.can_bet st) = Bankroll.apply_daily_loss_cap self
    /\ 0 <= Bankroll.max_drawdown st
    /\ (0 <= Bankroll.balance (Bankroll.state self) ->
        Bankroll.max_drawdown st <= 100)
    /\ (Bankroll.balance (Bankroll.state self) <= 0 ->
        Bankroll.status_daily_loss_pct st = 0).
Proof.
  intros self. apply (get_status_spec self).
  - vm_compute. discriminate.
  - vm_compute. discriminate.
Defined.

(** ** EVEngine: the decision *)

Section DecisionFacts.
Import EV.
Variables (self : EVEngine) (p5 p10 x bankroll : Q) (cfg : option EVConfig).

Let hv := ev_hold_vs_cash self p5 x cfg.
Let sb := ev_sidebet_vs_cash self p10 bankroll cfg.
Let thr := ev_threshold (cfg_or_self self cfg).

(** The head of the ranked list, case by case. *)
Lemma ranked_head :
  exists best rest,
    ranked self p5 p10 x bankroll cfg = best :: rest
    /\ (cand_name best = ARM_SIDEBET <-> (thr < sb /\ 0 < sb /\ hv < sb))
    /\ (cand_name best = HOLD <-> (0 <= hv /\ ~ (thr < sb /\ hv < sb)))
    /\ (cand_name best = CASH <-> (hv < 0 /\ ~ (thr < sb /\ 0 < sb)))
    /\ cand_name best <> TRIM.
Proof.
  unfold ranked.
  destruct (candidates_cases self p5 p10 x bankroll cfg) as [[G E]|[G E]];
    rewrite E; fold hv sb thr in G |- *;
    cbn [Py.sort_desc Py.insert_desc]; unfold cand_ev; cbn [fst snd].
  - apply ltb_lt in G.
    destruct (Py.ltb 0 sb) eqn:E1; cbn [Py.insert_desc fst snd];
      destruct (Py.ltb hv sb) eqn:E2; cbn [Py.insert_desc fst snd];
      try destruct (Py.ltb hv 0) eqn:E3;
      rewrite ?ltb_lt, ?ltb_ge in *;
      eexists; eexists; (split; [reflexivity|]); unfold cand_name; cbn [fst];
      repeat split; try discriminate; try tauto; try lra;
      intros; try lra; try tauto.
  - apply ltb_ge in G.
    destruct (Py.ltb hv 0) eqn:E3;
      rewrite ?ltb_lt, ?ltb_ge in *;
      eexists; eexists; (split; [reflexivity|]); unfold cand_name; cbn [fst];
      repeat split; try discriminate; try tauto; try lra;
      intros; try lra; try tauto.
Qed.

End DecisionFacts.

(** X10: the decision table of [best_action].  With [hv] the EV of holding
    relative to cashing and [sb] the sidebet EV: ARM_SIDEBET iff [sb] passes
    the threshold and is strictly above both 0 and [hv]; HOLD iff [hv >= 0]
    and no gated sidebet is strictly better; CASH iff [hv < 0] and no gated
    sidebet is strictly positive.  Ties go to HOLD, then CASH; TRIM is never
    returned. *)
Theorem best_action_decision
  (self : EV.EVEngine) (p5 p10 x bankroll : Q) (cfg : option EV.EVConfig) :
  let hv := EV.ev_hold_vs_cash self p5 x cfg in
  let sb := EV.ev_sidebet_vs_cash self p10 bankroll cfg in
  let thr := EV.ev_threshold (EV.cfg_or_self self cfg) in
  exists r,
    EV.best_action self p5 p10 x bankroll cfg = Some r
    /\ (EV.action r = EV.ARM_SIDEBET <-> (thr < sb /\ 0 < sb /\ hv < sb))
    /\ (EV.action r = EV.HOLD <-> (0 <= hv /\ ~ (thr < sb /\ hv < sb)))
    /\ (EV.action r = EV.CASH <-> (hv < 0 /\ ~ (thr < sb /\ 0 < sb)))
    /\ EV.action r <> EV.TRIM.
Proof.
  intros hv sb thr.
  destruct (ranked_head self p5 p10 x bankroll cfg)
    as (best & rest & E & Hside & Hhold & Hcash & Htrim).
  destruct (ranked_shape self p5 p10 x bankroll cfg) as (b' & second & rest' & E').
  rewrite E in E'. injection E' as Eb Er. subst b' rest.
  destruct (best_action_unfold self p5 p10 x bankroll cfg best second rest' E)
    as (r & Hr & Hact & _ & _).
  exists r. rewrite Hact. repeat split; try tauto.
Qed.

(** X11: the confidence [best_action] reports is never below 0.5: the
    margin between the first and the second ranked EV is never negative, so
    the lower clamp at 0.05 is never reached. *)
Theorem best_action_confidence_at_least_half
  (self : EV.EVEngine) (p5 p10 x bankroll : Q) (cfg : option EV.EVConfig) :
  exists r,
    EV.best_action self p5 p10 x bankroll cfg = Some r
    /\ 0.5 <= EV.confidence r
    /\ EV.confidence r <= 0.95.
Proof.
  destruct (ranked_shape self p5 p10 x bankroll cfg) as (best & second & rest & E).
  destruct (best_action_unfold self p5 p10 x bankroll cfg best second rest E)
    as (r & Hr & _ & _ & Hconf).
  exists r. split; [exact Hr|]. rewrite Hconf.
  pose proof (sort_desc_sorted EV.cand_ev (EV.candidates self p5 p10 x bankroll cfg))
    as Hs.
  fold (EV.ranked self p5 p10 x bankroll cfg) in Hs. rewrite E in Hs.
  assert (Hm : EV.cand_ev second <= EV.cand_ev best).
  { apply (sorted_head_max EV.cand_ev best (second :: rest) Hs).
    right. left. reflexivity. }
  unfold EV.confidence_of. split; [|apply min_le_l].
  unfold Py.min.
  match goal with |- context [Py.ltb ?m 0.95] => destruct (Py.ltb m 0.95) end.
  - apply Qle_trans with (0.5 + (EV.cand_ev best - EV.cand_ev second) * 10).
    + lra.
    + apply max_ge_r.
  - vm_compute. discriminate.
Qed.

(** X14: [best_action] and [get_all_evs] agree although only the former
    clamps the probabilities before calling the EV functions: the HOLD entry
    of [evs] is [ev_hold_vs_cash] of [get_all_evs], the CASH entry is 0, and
    an ARM_SIDEBET entry is present exactly when [ev_sidebet] of
    [get_all_evs] exceeds [ev_threshold], with that value. *)
Theorem best_action_evs_match_get_all_evs
  (self : EV.EVEngine) (p5 p10 x bankroll : Q) (cfg : option EV.EVConfig) :
  let all := EV.get_all_evs self p5 p10 x bankroll cfg in
  exists r,
    EV.best_action self p5 p10 x bankroll cfg = Some r
    /\ ((EV.ev_threshold (EV.cfg_or_self self cfg) < EV.all_ev_sidebet all
         /\ EV.evs r = [(EV.HOLD, EV.all_ev_hold_vs_cash all);
                        (EV.CASH, 0);
                        (EV.ARM_SIDEBET, EV.all_ev_sidebet all)])
        \/ (EV.all_ev_sidebet all <= EV.ev_threshold (EV.cfg_or_self self cfg)
            /\ EV.evs r = [(EV.HOLD, EV.all_ev_hold_vs_cash all); (EV.CASH, 0)])).
Proof.
  intros all.
  destruct (ranked_shape self p5 p10 x bankroll cfg) as (best & second & rest & E).
  destruct (best_action_unfold self p5 p10 x bankroll cfg best second rest E)
    as (r & Hr & _ & Hevs & _).
  exists r. split; [exact Hr|]. rewrite Hevs.
  assert (Hh : EV.ev_hold_vs_cash self p5 x cfg = EV.all_ev_hold_vs_cash all).
  { unfold EV.ev_hold_vs_cash, all, EV.get_all_evs, EV.ev_cash_hold.
    cbn [EV.all_ev_hold_vs_cash]. cbv zeta.
    unfold EV.clamp_probability. rewrite clip_idempotent. reflexivity. }
  assert (Hs : EV.ev_sidebet_vs_cash self p10 bankroll cfg = EV.all_ev_sidebet all).
  { unfold EV.ev_sidebet_vs_cash, all, EV.get_all_evs, EV.ev_sidebet.
    cbn [EV.all_ev_sidebet]. cbv zeta.
    unfold EV.clamp_probability. rewrite clip_idempotent. reflexivity. }
  destruct (candidates_cases self p5 p10 x bankroll cfg) as [[G Ec]|[G Ec]];
    rewrite Ec; unfold EV.evs_of; cbn [map fst]; rewrite Hh, Hs in *.
  - left. apply ltb_lt in G. split; [exact G | reflexivity].
  - right. apply ltb_ge in G. split; [exact G | reflexivity].
Qed.

(** ** ThresholdTuner: more on the Pareto frontier *)

Section FrontierFacts.
Import Tuner.

Lemma filter_length_le {A : Type} (f g : A -> bool) (l : list A) :
  (forall x, f x = true -> g x = true) ->
  (List.length (filter f l) <= List.length (filter g l))%nat.
Proof.
  intros Hfg. induction l as [|x l IH]; cbn [filter]; [lia|].
  destruct (f x) eqn:Ef.
  - rewrite (Hfg x Ef). cbn [List.length]. lia.
  - destruct (g x); cbn [List.length]; lia.
Qed.

Lemma filter_length_lt {A : Type} (f g : A -> bool) (l : list A) (b : A) :
  (forall x, f x = true -> g x = true) ->
  In b l -> g b = true -> f b = false ->
  (List.length (filter f l) < List.length (filter g l))%nat.
Proof.
  intros Hfg. induction l as [|x l IH]; intros Hin Hg Hf; [contradiction|].
  cbn [filter]. destruct Hin as [->|Hin].
  - rewrite Hf, Hg. cbn [List.length].
    pose proof (filter_length_le f g l Hfg). lia.
  - specialize (IH Hin Hg Hf). destruct (f x) eqn:Ef.
    + rewrite (Hfg x Ef). cbn [List.length]. lia.
    + destruct (g x); cbn [List.length]; lia.
Qed.

(** Every result is on the frontier or below some result of the frontier:
    climbing from a result to one that dominates it strictly shrinks the set
    of dominators, so the climb ends. *)
Lemma dominator_chain (results : list SweepResult) (n : nat) :
  forall a,
    In a results ->
    List.length (filter (fun b => dominates b a) results) = n ->
    exists m,
      In m results
      /\ (forall b, In b results -> ~ Dominates b m)
      /\ (m = a \/ Dominates m a).
Proof.
  induction n as [n IH] using lt_wf_ind. intros a Ha Hn.
  destruct (dominated results a) eqn:Ed.
  - apply dominated_iff in Ed. destruct Ed as (b & Hb & Hba).
    assert (Hlt : (List.length (filter (fun c => dominates c b) results) < n)%nat).
    { rewrite <- Hn. apply (filter_length_lt _ _ results b).
      - intros c Hc. apply dominates_iff. apply dominates_iff in Hc.
        exact (Dominates_trans c b a Hc Hba).
      - exact Hb.
      - apply dominates_iff. exact Hba.
      - apply not_true_iff_false. intros Hbb. apply dominates_iff in Hbb.
        exact (Dominates_irrefl b Hbb). }
    destruct (IH _ Hlt b Hb eq_refl) as (m & Hm & Hnd & Hmb).
    exists m. split; [exact Hm|]. split; [exact Hnd|]. right.
    destruct Hmb as [->|Hmb]; [exact Hba|].
    exact (Dominates_trans m b a Hmb Hba).
  - exists a. split; [exact Ha|]. split; [|left; reflexivity].
    intros b Hb Hba.
    assert (K : dominated results a = true)
      by (apply dominated_iff; exists b; split; assumption).
    congruence.
Qed.

Lemma insert_desc_head {A : Type} (key : A -> Q) (x : A) (l : list A) :
  Forall (fun y => key y <= key x) l -> Py.insert_desc key x l = x :: l.
Proof.
  intros Hall. destruct l as [|y l]; [reflexivity|].
  cbn [Py.insert_desc]. inversion Hall as [|? ? Hy _]. subst.
  assert (E : Py.ltb (key x) (key y) = false) by (apply ltb_ge; exact Hy).
  rewrite E. reflexivity.
Qed.

(** Sorting a list that is already in descending order changes nothing. *)
Lemma sort_desc_sorted_id {A : Type} (key : A -> Q) (l : list A) :
  StronglySorted (desc key) l -> Py.sort_desc key l = l.
Proof.
  induction 1 as [|x l Hs IH Hall]; [reflexivity|].
  cbn [Py.sort_desc]. rewrite IH. apply insert_desc_head. exact Hall.
Qed.

Lemma filter_all {A : Type} (f : A -> bool) (l : list A) :
  (forall x, In x l -> f x = true) -> filter f l = l.
Proof.
  induction l as [|x l IH]; intros H; [reflexivity|].
  cbn [filter]. rewrite (H x) by (left; reflexivity).
  f_equal. apply IH. intros y Hy. apply H. right. exact Hy.
Qed.

End FrontierFacts.

(** X15: the frontier covers the sweep: every result of the input is either
    on the frontier itself or dominated by a result that is on the
    frontier; and the frontier holds only results of the input. *)
Theorem find_pareto_optimal_covers
  (results : list Tuner.SweepResult) (a : Tuner.SweepResult) :
  (In a (Tuner.find_pareto_optimal results) -> In a results)
  /\ (In a results ->
      In a (Tuner.find_pareto_optimal results)
      \/ exists m, In m (Tuner.find_pareto_optimal results) /\ Dominates m a).
Proof.
  split.
  - intros H. apply find_pareto_optimal_In in H. tauto.
  - intros Ha.
    destruct (dominator_chain results _ a Ha eq_refl) as (m & Hm & Hnd & Hma).
    assert (Hin : In m (Tuner.find_pareto_optimal results))
      by (apply find_pareto_optimal_In; split; assumption).
    destruct Hma as [->|Hma]; [left; exact Hin | right; exists m; tauto].
Qed.

(** X16: the first entry of the frontier, the one [save_results] publishes
    as the recommended thresholds, has the highest Sharpe ratio of the whole
    sweep, dominated results included. *)
Theorem find_pareto_optimal_head_best_sharpe
  (results : list Tuner.SweepResult)
  (best : Tuner.SweepResult) (rest : list Tuner.SweepResult) :
  Tuner.find_pareto_optimal results = best :: rest ->
  In best results
  /\ forall a, In a results -> Tuner.sharpe_ratio a <= Tuner.sharpe_ratio best.
Proof.
  intros E.
  assert (Hhead : forall m, In m (Tuner.find_pareto_optimal results) ->
                            Tuner.sharpe_ratio m <= Tuner.sharpe_ratio best).
  { intros m Hm. rewrite E in Hm.
    apply (sorted_head_max Tuner.sharpe_ratio best rest); [|exact Hm].
    rewrite <- E. unfold Tuner.find_pareto_optimal.
    destruct results; [constructor | apply sort_desc_sorted]. }
  split.
  - apply (find_pareto_optimal_In results best). rewrite E. left. reflexivity.
  - intros a Ha.
    destruct (dominator_chain results _ a Ha eq_refl) as (m & Hm & Hnd & Hma).
    assert (Hin : In m (Tuner.find_pareto_optimal results))
      by (apply find_pareto_optimal_In; split; assumption).
    specialize (Hhead m Hin).
    destruct Hma as [->|(_ & Hs & _)]; lra.
Qed.

Lemma find_pareto_optimal_head_best_sharpe_witness :
  let r1 := Tuner.mkSweep 0.15 0.25 0.02 1.5 0.1 0.2 12 1020 in
  let r2 := Tuner.mkSweep 0.2 0.25 0.01 1.2 0.2 0.4 9 1010 in
  let r3 := Tuner.mkSweep 0.25 0.25 0.01 1.8 0.05 0.1 7 1010 in
  In r3 [r1; r2; r3]
  /\ forall a, In a [r1; r2; r3] -> Tuner.sharpe_ratio a <= Tuner.sharpe_ratio r3.
Proof.
  intros r1 r2 r3.
  apply (find_pareto_optimal_head_best_sharpe [r1; r2; r3] r3 [r1]).
  reflexivity.
Defined.

(** X17: computing the frontier of a frontier gives the same list back, in
    the same order. *)
Theorem find_pareto_optimal_idempotent (results : list Tuner.SweepResult) :
  Tuner.find_pareto_optimal (Tuner.find_pareto_optimal results)
  = Tuner.find_pareto_optimal results.
Proof.
  set (front := Tuner.find_pareto_optimal results).
  assert (Hs : StronglySorted (desc Tuner.sharpe_ratio) front).
  { unfold front, Tuner.find_pareto_optimal.
    destruct results; [constructor | apply sort_desc_sorted]. }
  assert (Hnd : forall a, In a front -> negb (Tuner.dominated front a) = true).
  { intros a Ha. apply negb_true_iff, not_true_iff_false. intros Hd.
    apply dominated_iff in Hd. destruct Hd as (b & Hb & Hba).
    apply find_pareto_optimal_In in Ha. apply find_pareto_optimal_In in Hb.
    destruct Ha as [_ Ha]. destruct Hb as [Hb _]. exact (Ha b Hb Hba). }
  unfold Tuner.find_pareto_optimal at 1.
  destruct front as [|f0 fs] eqn:Ef; [reflexivity|].
  rewrite (filter_all _ _ Hnd). apply sort_desc_sorted_id. exact Hs.
Qed.

(** ** Python ranges, positions and slices *)

Section RangeFacts.

Lemma range_zero_step (start stop : Z) : Py.range start stop 0 = None.
Proof. reflexivity. Qed.

Lemma scaled_seq_sorted (step : Z) (c a : nat) :
  (0 < step)%Z ->
  StronglySorted Z.lt (map (fun k => (0 + Z.of_nat k * step)%Z) (seq a c)).
Proof.
  intros Hs. revert a. induction c as [|c IH]; intros a; cbn [seq map].
  - constructor.
  - constructor; [apply IH|].
    apply Forall_forall. intros i Hi.
    apply in_map_iff in Hi. destruct Hi as (k & <- & Hk).
    apply in_seq in Hk. nia.
Qed.

(** A range from 0 with a positive step: strictly increasing positions, all
    in [[0, stop)], the first of them 0 when there is any. *)
Lemma range_from_zero (stop step : Z) :
  (0 < step)%Z ->
  exists indices,
    Py.range 0 stop step = Some indices
    /\ StronglySorted Z.lt indices
    /\ Forall (fun i => (0 <= i < stop)%Z) indices
    /\ ((0 < stop)%Z -> exists rest, indices = 0%Z :: rest).
Proof.
  intros Hs. unfold Py.range.
  assert (E0 : (step =? 0)%Z = false) by (apply Z.eqb_neq; lia).
  assert (E1 : (0 <? step)%Z = true) by (apply Z.ltb_lt; lia).
  rewrite E0, E1. eexists. split; [reflexivity|].
  set (c := ((stop - 0 + step - 1) / step)%Z).
  split; [apply scaled_seq_sorted; exact Hs|]. split.
  - apply Forall_forall. intros i Hi.
    apply in_map_iff in Hi. destruct Hi as (k & <- & Hk).
    apply in_seq in Hk.
    assert (Hc : (Z.of_nat k + 1 <= c)%Z) by lia.
    pose proof (Z.mul_div_le (stop - 0 + step - 1) step Hs) as Hd.
    fold c in Hd. nia.
  - intros Hstop.
    assert (Hc : (1 <= c)%Z).
    { unfold c. apply Z.div_le_lower_bound; lia. }
    destruct (Z.to_nat c) as [|c'] eqn:Ec; [lia|].
    cbn [seq map]. eexists. reflexivity.
Qed.

(** A range from 0 up to a positive bound with a negative step is empty. *)
Lemma range_backwards (stop step : Z) :
  (step < 0)%Z -> (0 <= stop)%Z -> Py.range 0 stop step = Some [].
Proof.
  intros Hs Hstop. unfold Py.range.
  assert (E0 : (step =? 0)%Z = false) by (apply Z.eqb_neq; lia).
  assert (E1 : (0 <? step)%Z = false) by (apply Z.ltb_ge; lia).
  rewrite E0, E1.
  assert (Hc : ((0 - stop - step - 1) / - step <= 0)%Z).
  { assert (K : ((0 - stop - step - 1) / - step < 1)%Z)
      by (apply Z.div_lt_upper_bound; lia).
    lia. }
  destruct (Z.to_nat ((0 - stop - step - 1) / - step)) eqn:E; [reflexivity | lia].
Qed.

Lemma iloc_in_range {A : Type} (data : list A) (k : Z) :
  (0 <= k < Z.of_nat (List.length data))%Z ->
  exists r, Py.iloc data k = Some r.
Proof.
  intros Hk. unfold Py.iloc.
  assert (E0 : (k <? 0)%Z = false) by (apply Z.ltb_ge; lia).
  rewrite E0.
  assert (E1 : (k <? 0)%Z || (Z.of_nat (List.length data) <=? k)%Z = false).
  { rewrite E0. apply Z.leb_gt. lia. }
  rewrite E1.
  destruct (nth_error data (Z.to_nat k)) eqn:E; [eauto|].
  apply nth_error_None in E. lia.
Qed.

Lemma iloc_last {A : Type} (data : list A) :
  data <> [] -> exists r, Py.iloc data (-1) = Some r.
Proof.
  intros Hne. unfold Py.iloc.
  assert (Hn : (0 < Z.of_nat (List.length data))%Z).
  { destruct data; [contradiction | cbn [List.length]; lia]. }
  change (-1 <? 0)%Z with true. cbv iota.
  assert (E1 : (-1 + Z.of_nat (List.length data) <? 0)%Z
               || (Z.of_nat (List.length data)
                   <=? -1 + Z.of_nat (List.length data))%Z = false).
  { apply orb_false_iff. split; [apply Z.ltb_ge | apply Z.leb_gt]; lia. }
  rewrite E1.
  destruct (nth_error data (Z.to_nat (-1 + Z.of_nat (List.length data)))) eqn:E;
    [eauto|].
  apply nth_error_None in E. lia.
Qed.

(** A window of [w] rounds cut at a non-negative position never holds more
    than [w] rounds. *)
Lemma slice_window_length {A : Type} (data : list A) (i w : Z) :
  (0 <= i)%Z -> (0 <= w)%Z ->
  (Z.of_nat (List.length (Py.slice data i (Some (i + w)%Z))) <= w)%Z.
Proof.
  intros Hi Hw. unfold Py.slice, Py.slice_bound.
  assert (E0 : (i <? 0)%Z = false) by (apply Z.ltb_ge; lia).
  assert (E1 : (i + w <? 0)%Z = false) by (apply Z.ltb_ge; lia).
  rewrite E0, E1.
  pose proof (firstn_le_length
                (Z.to_nat (Z.min (i + w) (Z.of_nat (List.length data))
                           - Z.min i (Z.of_nat (List.length data))))
                (skipn (Z.to_nat (Z.min i (Z.of_nat (List.length data)))) data)) as H.
  lia.
Qed.

End RangeFacts.

(** ** RegimeDetector: regime changes over a history *)

Section ChangesFacts.
Import Regime.
Variable std : list (option Q) -> option Q.
Variable sort_values : list Round -> list Round.

Lemma Label_eqb_eq (a b : Label) : Label_eqb a b = true <-> a = b.
Proof. destruct a, b; cbn; split; intros H; try reflexivity; discriminate. Qed.

Lemma rounds_covered_snoc (l : list RegimeInfo) (x : RegimeInfo) :
  rounds_covered (l ++ [x]) = (rounds_covered l + round_count x)%Z.
Proof.
  unfold rounds_covered. induction l as [|a l IH]; cbn [app map fold_right].
  - lia.
  - rewrite IH. lia.
Qed.

Lemma alternating_snoc (l : list RegimeInfo) (x : RegimeInfo) :
  alternating l ->
  (forall y rest, rev l = y :: rest -> regime y <> regime x) ->
  alternating (l ++ [x]).
Proof.
  induction l as [|a [|b t] IH]; intros Ha Hlast.
  - exact I.
  - cbn. split; [|exact I]. apply (Hlast a []). reflexivity.
  - destruct Ha as [Hab Ht]. change ((a :: b :: t) ++ [x]) with (a :: (b :: t) ++ [x]).
    cbn [app alternating]. split; [exact Hab|]. apply IH; [exact Ht|].
    intros y rest E. apply (Hlast y (rest ++ [a])).
    change (rev (a :: b :: t)) with (rev (b :: t) ++ [a]). rewrite E. reflexivity.
Qed.

Lemma segment_info_some (data : list Round) (label : Label)
      (start : Z) (stop : option Z) (last count : Z) :
  (0 <= start < Z.of_nat (List.length data))%Z ->
  (exists r, Py.iloc data last = Some r) ->
  exists info,
    segment_info std data label start stop last count = Some info
    /\ regime info = label
    /\ round_count info = count.
Proof.
  intros Hs (r & Hr). unfold segment_info.
  destruct (iloc_in_range data start Hs) as (f & Hf). rewrite Hf, Hr.
  eexists. split; [reflexivity|]. split; reflexivity.
Qed.

(** The loop never fails and keeps [segments_inv]. *)
Lemma window_loop_inv (cfg : RegimeConfig) (data : list Round) (w : Z)
      (indices : list Z) :
  forall st,
    StronglySorted Z.lt indices ->
    Forall (fun i => (0 <= i < Z.of_nat (List.length data))%Z) indices ->
    segments_inv (Z.of_nat (List.length data)) st ->
    (current_regime st = None -> forall i rest, indices = i :: rest -> i = 0%Z) ->
    (current_regime st <> None ->
     Forall (fun i => (regime_start st < i)%Z) indices) ->
    exists st',
      window_loop std cfg data w indices st = Some st'
      /\ segments_inv (Z.of_nat (List.length data)) st'
      /\ (indices <> [] \/ current_regime st <> None -> current_regime st' <> None).
Proof.
  induction indices as [|i rest IH]; intros st Hsorted Hbound Hinv Hfirst Hafter.
  - exists st. split; [reflexivity|]. split; [exact Hinv|].
    intros [H|H]; [contradiction | exact H].
  - inversion Hsorted as [|? ? Hsorted' Hlt]. subst.
    inversion Hbound as [|? ? Hi Hbound']. subst.
    cbn [window_loop]. unfold window_step.
    unfold segments_inv in Hinv.
    destruct (current_regime st) as [c|] eqn:Ec.
    + destruct Hinv as (Hrs & Hcov & Hpos & Halt & Hlast).
      assert (Hgt : (regime_start st < i)%Z).
      { assert (Hf : Forall (fun j => (regime_start st < j)%Z) (i :: rest))
          by (apply Hafter; discriminate).
        inversion Hf. assumption. }
      destruct (Label_eqb _ c) eqn:El.
      * destruct (IH st Hsorted' Hbound') as (st' & Hrun & Hinv' & Hcur).
        -- unfold segments_inv. rewrite Ec. repeat split; try assumption; lia.
        -- intros H. congruence.
        -- intros _.
           assert (Hf : Forall (fun j => (regime_start st < j)%Z) (i :: rest))
             by (apply Hafter; discriminate).
           inversion Hf. assumption.
        -- exists st'. split; [exact Hrun|]. split; [exact Hinv'|].
           intros _. apply Hcur. right. congruence.
      * destruct (segment_info_some data c (regime_start st) (Some i) (i - 1)
                                    (i - regime_start st))
          as (info & Hinfo & Hreg & Hcount).
        -- lia.
        -- apply iloc_in_range. lia.
        -- rewrite Hinfo.
           match goal with
           | |- context [window_loop std cfg data w rest ?s] => set (st1 := s)
           end.
           destruct (IH st1 Hsorted' Hbound') as (st' & Hrun & Hinv' & Hcur).
           ++ unfold segments_inv, st1.
              cbn [current_regime regimes regime_start].
              split; [lia|]. split; [rewrite rounds_covered_snoc; lia|].
              split.
              { apply Forall_app. split; [exact Hpos|].
                constructor; [lia | constructor]. }
              split.
              { apply alternating_snoc; [exact Halt|].
                intros y rest' E. rewrite Hreg. exact (Hlast y rest' E). }
              intros info' rest' E. rewrite rev_app_distr in E.
              cbn [rev app] in E. injection E as <- _. rewrite Hreg.
              intros Heq. symmetry in Heq. apply Label_eqb_eq in Heq. congruence.
           ++ unfold st1. cbn [current_regime]. discriminate.
           ++ intros _. unfold st1. cbn [regime_start]. exact Hlt.
           ++ exists st'. split; [exact Hrun|]. split; [exact Hinv'|].
              intros _. apply Hcur. right. unfold st1. cbn [current_regime].
              discriminate.
    + destruct Hinv as (Hregs & Hstart).
      assert (Hi0 : i = 0%Z) by (apply (Hfirst eq_refl i rest); reflexivity).
      match goal with
      | |- context [window_loop std cfg data w rest ?s] => set (st1 := s)
      end.
      destruct (IH st1 Hsorted' Hbound') as (st' & Hrun & Hinv' & Hcur).
      * unfold segments_inv, st1. cbn [current_regime regimes regime_start].
        rewrite Hregs. split; [lia|]. split; [cbn; lia|].
        split; [constructor|]. split; [exact I|].
        intros info rest' E. discriminate E.
      * unfold st1. cbn [current_regime]. discriminate.
      * intros _. unfold st1. cbn [regime_start]. exact Hlt.
      * exists st'. split; [exact Hrun|]. split; [exact Hinv'|].
        intros _. apply Hcur. right. unfold st1. cbn [current_regime].
        discriminate.
Qed.

End ChangesFacts.

(** X18: edge behaviour of [detect_regime_changes].  Fewer rounds than
    [min_rounds_per_regime]: the empty list.  Otherwise, with
    [window_size = min(min_rounds_per_regime, len(data) // 4)]: a window size
    of 0 or 1 makes the [range] step [window_size // 2] zero and the call
    raises; a negative [min_rounds_per_regime] gives an empty range and the
    empty list. *)
Theorem detect_regime_changes_edges
  (std : list (option Q) -> option Q)
  (sort_values : list Regime.Round -> list Regime.Round)
  (cfg : Regime.RegimeConfig) (data : list Regime.Round) :
  (forall d, List.length (sort_values d) = List.length d) ->
  let n := Z.of_nat (List.length data) in
  let m := Regime.min_rounds_per_regime cfg in
  ((n < m)%Z -> Regime.detect_regime_changes std sort_values cfg data = Some [])
  /\ ((m <= n)%Z -> (0 <= Z.min m (n / 4) <= 1)%Z ->
      Regime.detect_regime_changes std sort_values cfg data = None)
  /\ ((m <= n)%Z -> (m < 0)%Z ->
      Regime.detect_regime_changes std sort_values cfg data = Some []).
Proof.
  intros Hlen n m. unfold Regime.detect_regime_changes.
  rewrite Hlen. fold n m. split; [|split].
  - intros H. apply Z.ltb_lt in H. rewrite H. reflexivity.
  - intros Hge Hw. apply Z.ltb_ge in Hge. rewrite Hge.
    assert (E : (Z.min m (n / 4) / 2 = 0)%Z) by (apply Z.div_small; lia).
    rewrite E. reflexivity.
  - intros Hge Hneg. apply Z.ltb_ge in Hge. rewrite Hge.
    assert (Hq : (0 <= n / 4)%Z) by (apply Z.div_pos; lia).
    assert (Hmin : Z.min m (n / 4) = m) by lia. rewrite Hmin.
    assert (Hstep : (m / 2 < 0)%Z) by (apply Z.div_lt_upper_bound; lia).
    rewrite range_backwards by lia. reflexivity.
Qed.

Lemma detect_regime_changes_edges_witness :
  let cfg := Regime.mkConfig 200 0.1 0.3 0.05 0.15 4 in
  let data := map (fun k => Regime.mkRound k k (Regime.mkRow (Some 0.2) (Some 0.1)))
                  [1; 2; 3; 4; 5; 6]%Z in
  ((6 < 4)%Z ->
   Regime.detect_regime_changes (fun _ => None) (fun d => d) cfg data = Some [])
  /\ ((4 <= 6)%Z -> (0 <= Z.min 4 (6 / 4) <= 1)%Z ->
      Regime.detect_regime_changes (fun _ => None) (fun d => d) cfg data = None)
  /\ ((4 <= 6)%Z -> (4 < 0)%Z ->
      Regime.detect_regime_changes (fun _ => None) (fun d => d) cfg data = Some []).
Proof.
  intros cfg data.
  apply (detect_regime_changes_edges (fun _ => None) (fun d => d) cfg data).
  reflexivity.
Defined.

(** X19: with at least [min_rounds_per_regime] rounds and a window of at
    least 2 rounds, [detect_regime_changes] never raises and returns at
    least one segment; the segments' [round_count]s are positive and add up
    to the number of rounds, and adjacent segments carry different labels. *)
Theorem detect_regime_changes_partition
  (std : list (option Q) -> option Q)
  (sort_values : list Regime.Round -> list Regime.Round)
  (cfg : Regime.RegimeConfig) (data : list Regime.Round) :
  (forall d, List.length (sort_values d) = List.length d) ->
  let n := Z.of_nat (List.length data) in
  let m := Regime.min_rounds_per_regime cfg in
  (m <= n)%Z ->
  (2 <= Z.min m (n / 4))%Z ->
  exists segments,
    Regime.detect_regime_changes std sort_values cfg data = Some segments
    /\ segments <> []
    /\ rounds_covered segments = n
    /\ Forall (fun s => (0 < Regime.round_count s)%Z) segments
    /\ alternating segments.
Proof.
  intros Hlen n m Hge Hw. unfold Regime.detect_regime_changes.
  assert (Hn : Z.of_nat (List.length (sort_values data)) = n)
    by (rewrite Hlen; reflexivity).
  rewrite Hlen. fold n m.
  apply Z.ltb_ge in Hge. rewrite Hge.
  set (w := Z.min m (n / 4)) in *.
  assert (Hq : (n / 4 <= n)%Z).
  { assert (K : (0 <= n)%Z) by lia. apply Z.div_le_upper_bound; lia. }
  assert (Hstep : (0 < w / 2)%Z) by (apply Z.div_str_pos; lia).
  destruct (range_from_zero (n - w + 1) (w / 2) Hstep)
    as (indices & Hrange & Hsorted & Hbound & Hhead).
  rewrite Hrange.
  destruct Hhead as (rest & Hidx); [lia|].
  destruct (window_loop_inv std cfg (sort_values data) w indices
              {| Regime.regimes := []; Regime.current_regime := None;
                 Regime.regime_start := 0%Z |})
    as (st & Hrun & Hinv & Hcur).
  - exact Hsorted.
  - rewrite Hn. apply Forall_forall. intros i Hi.
    rewrite Forall_forall in Hbound. specialize (Hbound i Hi). lia.
  - unfold segments_inv. cbn. split; reflexivity.
  - intros _ i rest' E. rewrite Hidx in E. injection E as <- _. reflexivity.
  - intros H. cbn in H. contradiction.
  - rewrite Hrun. rewrite Hn in Hinv.
    assert (Hsome : Regime.current_regime st <> None).
    { apply Hcur. left. rewrite Hidx. discriminate. }
    unfold segments_inv in Hinv.
    destruct (Regime.current_regime st) as [c|]; [|contradiction].
    destruct Hinv as (Hrs & Hcov & Hpos & Halt & Hlast).
    destruct (segment_info_some std (sort_values data) c (Regime.regime_start st)
                                None (-1) (n - Regime.regime_start st))
      as (info & Hinfo & Hreg & Hcount).
    + rewrite Hn. exact Hrs.
    + apply iloc_last. intros E. rewrite E in Hn. cbn in Hn. lia.
    + rewrite Hinfo. eexists. split; [reflexivity|]. split.
      * intros E. apply app_eq_nil in E. destruct E as [_ E]. discriminate E.
      * split; [rewrite rounds_covered_snoc; lia|]. split.
        -- apply Forall_app. split; [exact Hpos|].
           constructor; [lia | constructor].
        -- apply alternating_snoc; [exact Halt|].
           intros y rest' E. rewrite Hreg. exact (Hlast y rest' E).
Qed.

Lemma detect_regime_changes_partition_witness :
  let cfg := Regime.mkConfig 200 0.1 0.3 0.05 0.15 2 in
  let calm := Regime.mkRow (Some 0.01) (Some 0.01) in
  let hot := Regime.mkRow (Some 0.5) (Some 0.5) in
  let data := [Regime.mkRound 1 1 calm; Regime.mkRound 2 2 calm;
               Regime.mkRound 3 3 calm; Regime.mkRound 4 4 calm;
               Regime.mkRound 5 5 hot; Regime.mkRound 6 6 hot;
               Regime.mkRound 7 7 hot; Regime.mkRound 8 8 hot] in
  exists segments,
    Regime.detect_regime_changes (fun _ => None) (fun d => d) cfg data
    = Some segments
    /\ segments <> []
    /\ rounds_covered segments = 8%Z
    /\ Forall (fun s => (0 < Regime.round_count s)%Z) segments
    /\ alternating segments.
Proof.
  intros cfg calm hot data.
  apply (detect_regime_changes_partition (fun _ => None) (fun d => d) cfg data).
  - reflexivity.
  - vm_compute. discriminate.
  - vm_compute. discriminate.
Defined.

(** Four calm rounds followed by four hot ones, windows of two rounds: the
    label flips at the first window that contains a hot round. *)
Example detect_regime_changes_demo :
  let cfg := Regime.mkConfig 200 0.1 0.3 0.05 0.15 2 in
  let calm := Regime.mkRow (Some 0.01) (Some 0.01) in
  let hot := Regime.mkRow (Some 0.5) (Some 0.5) in
  let data := [Regime.mkRound 11 1 calm; Regime.mkRound 12 2 calm;
               Regime.mkRound 13 3 calm; Regime.mkRound 14 4 calm;
               Regime.mkRound 15 5 hot; Regime.mkRound 16 6 hot;
               Regime.mkRound 17 7 hot; Regime.mkRound 18 8 hot] in
  option_map
    (map (fun s => (Regime.regime s, Regime.start_round s, Regime.end_round s,
                    Regime.round_count s)))
    (Regime.detect_regime_changes (fun _ => None) (fun d => d) cfg data)
  = Some [(Regime.low_vol, 11, 13, 3); (Regime.high_vol, 14, 18, 5)]%Z.
Proof. vm_compute. reflexivity. Qed.

Section QuietHistory.
Import Regime.
Variable std : list (option Q) -> option Q.

(** With windows shorter than [min_rounds_per_regime] every window is
    labelled normal, so the loop only ever opens one segment, at 0. *)
Lemma window_loop_all_normal (cfg : RegimeConfig) (data : list Round) (w : Z)
      (indices : list Z) :
  (0 <= w < min_rounds_per_regime cfg)%Z ->
  Forall (fun i => (0 <= i)%Z) indices ->
  forall st,
    regimes st = [] -> regime_start st = 0%Z ->
    (current_regime st = None \/ current_regime st = Some normal) ->
    (current_regime st = None -> forall i rest, indices = i :: rest -> i = 0%Z) ->
    exists st',
      window_loop std cfg data w indices st = Some st'
      /\ regimes st' = [] /\ regime_start st' = 0%Z
      /\ (current_regime st' = None \/ current_regime st' = Some normal)
      /\ (indices <> [] -> current_regime st' = Some normal).
Proof.
  intros Hw. induction indices as [|i rest IH];
    intros Hnonneg st Hregs Hstart Hcur Hfirst.
  - exists st. repeat split; try assumption. intros H. contradiction.
  - inversion Hnonneg as [|? ? Hi Hnonneg']. subst.
    cbn [window_loop]. unfold window_step.
    assert (Hlabel : detect_regime cfg
                       (map cells (Py.slice data i (Some (i + w)%Z))) = normal).
    { unfold detect_regime. rewrite length_map.
      pose proof (slice_window_length data i w Hi (proj1 Hw)) as Hl.
      assert (E : (Z.of_nat (List.length (Py.slice data i (Some (i + w)%Z)))
                   <? min_rounds_per_regime cfg)%Z = true)
        by (apply Z.ltb_lt; lia).
      rewrite E. reflexivity. }
    rewrite Hlabel.
    destruct Hcur as [Hc|Hc]; rewrite Hc.
    + assert (Hi0 : i = 0%Z) by (apply (Hfirst Hc i rest); reflexivity).
      destruct (IH Hnonneg' {| regimes := regimes st;
                               current_regime := Some normal;
                               regime_start := i |})
        as (st' & Hrun & Hr & Hs & Hc' & Hn); cbn; try assumption; try tauto.
      * intros H. discriminate H.
      * exists st'. split; [exact Hrun|]. repeat split; try assumption.
        intros _. destruct Hc' as [Hc'|Hc']; [|exact Hc'].
        destruct rest as [|j rest'].
        -- cbn in Hrun. injection Hrun as <-. cbn in Hc'. discriminate Hc'.
        -- apply Hn. discriminate.
    + cbn [Label_eqb].
      destruct (IH Hnonneg' st) as (st' & Hrun & Hr & Hs & Hc' & Hn);
        try assumption; try tauto.
      * intros H. congruence.
      * exists st'. split; [exact Hrun|]. repeat split; try assumption.
        intros _. destruct rest as [|j rest'].
        -- cbn in Hrun. injection Hrun as <-. exact Hc.
        -- apply Hn. discriminate.
Qed.

Lemma last_cons_default {A : Type} (l : list A) (a d : A) :
  last (a :: l) d = last l a.
Proof.
  revert a d. induction l as [|b l IH]; intros a d; [reflexivity|].
  change (last (a :: b :: l) d) with (last (b :: l) d).
  rewrite (IH b d), (IH b a). reflexivity.
Qed.

Lemma nth_error_last {A : Type} (l : list A) (a d : A) :
  nth_error (a :: l) (List.length l) = Some (last (a :: l) d).
Proof.
  revert a. induction l as [|b l IH]; intros a; [reflexivity|].
  cbn [List.length nth_error]. rewrite IH. reflexivity.
Qed.

(** Integers of at most 53 bits survive the passage through float64. *)
Lemma float64_of_int_small (z : Z) :
  (Z.abs z <= 2 ^ 53)%Z -> Py.float64_of_int z = z.
Proof.
  intros Hz. unfold Py.float64_of_int.
  destruct (Z.eq_dec (Z.abs z) (2 ^ 53)) as [E|E].
  - destruct (Z.abs_eq_or_opp z) as [Ha|Ha]; rewrite Ha in E.
    + subst z. reflexivity.
    + assert (Ez : z = (- 2 ^ 53)%Z) by lia. subst z. reflexivity.
  - assert (Hk : (Z.log2 (Z.abs z) - 52 <=? 0)%Z = true).
    { apply Z.leb_le.
      destruct (Z.eq_dec (Z.abs z) 0) as [E0|E0]; [rewrite E0; cbn; lia|].
      assert (Hlog : (Z.log2 (Z.abs z) < 53)%Z)
        by (apply Z.log2_lt_pow2; lia).
      lia. }
    rewrite Hk. reflexivity.
Qed.

Lemma detect_regime_empty (cfg : RegimeConfig) : detect_regime cfg [] = normal.
Proof.
  unfold detect_regime. cbn.
  destruct (0 <? min_rounds_per_regime cfg)%Z; reflexivity.
Qed.

End QuietHistory.

(** X20: when a quarter of the history is shorter than
    [min_rounds_per_regime], every sliding window is too short for
    [detect_regime] to judge, so [detect_regime_changes] reports a single
    segment labelled normal that spans the whole history, whatever the data
    (with the default 50 this is every history of 50 to 199 rounds). *)
Theorem detect_regime_changes_short_history
  (std : list (option Q) -> option Q)
  (sort_values : list Regime.Round -> list Regime.Round)
  (cfg : Regime.RegimeConfig) (data : list Regime.Round) :
  (forall d, List.length (sort_values d) = List.length d) ->
  let n := Z.of_nat (List.length data) in
  let m := Regime.min_rounds_per_regime cfg in
  (m <= n)%Z ->
  (2 <= n / 4 < m)%Z ->
  exists segment,
    Regime.detect_regime_changes std sort_values cfg data = Some [segment]
    /\ Regime.regime segment = Regime.normal
    /\ Regime.round_count segment = n.
Proof.
  intros Hlen n m Hge Hq. unfold Regime.detect_regime_changes.
  assert (Hn : Z.of_nat (List.length (sort_values data)) = n)
    by (rewrite Hlen; reflexivity).
  rewrite Hlen. fold n m.
  apply Z.ltb_ge in Hge. rewrite Hge.
  assert (Hmin : Z.min m (n / 4) = (n / 4)%Z) by lia. rewrite Hmin.
  assert (Hle : (n / 4 <= n)%Z).
  { assert (K : (0 <= n)%Z) by lia. apply Z.div_le_upper_bound; lia. }
  assert (Hstep : (0 < n / 4 / 2)%Z) by (apply Z.div_str_pos; lia).
  destruct (range_from_zero (n - n / 4 + 1) (n / 4 / 2) Hstep)
    as (indices & Hrange & Hsorted & Hbound & Hhead).
  rewrite Hrange.
  destruct Hhead as (rest & Hidx); [lia|].
  destruct (window_loop_all_normal std cfg (sort_values data) (n / 4) indices)
    with (st := {| Regime.regimes := []; Regime.current_regime := None;
                   Regime.regime_start := 0%Z |})
    as (st & Hrun & Hr & Hs & _ & Hc); try reflexivity.
  - fold m. lia.
  - apply Forall_forall. intros i Hi.
    rewrite Forall_forall in Hbound. specialize (Hbound i Hi). lia.
  - left. reflexivity.
  - intros _ i rest' E. rewrite Hidx in E. injection E as <- _. reflexivity.
  - rewrite Hrun, Hc by (rewrite Hidx; discriminate). rewrite Hr, Hs.
    destruct (segment_info_some std (sort_values data) Regime.normal 0
                                None (-1) (n - 0))
      as (info & Hinfo & Hreg & Hcount).
    + rewrite Hn. lia.
    + apply iloc_last. intros E. rewrite E in Hn. cbn in Hn. lia.
    + rewrite Hinfo. exists info. split; [reflexivity|].
      split; [exact Hreg | lia].
Qed.

Lemma detect_regime_changes_short_history_witness :
  let cfg := Regime.mkConfig 200 0.1 0.3 0.05 0.15 3 in
  let hot := Regime.mkRow (Some 0.5) (Some 0.5) in
  let data := [Regime.mkRound 1 1 hot; Regime.mkRound 2 2 hot;
               Regime.mkRound 3 3 hot; Regime.mkRound 4 4 hot;
               Regime.mkRound 5 5 hot; Regime.mkRound 6 6 hot;
               Regime.mkRound 7 7 hot; Regime.mkRound 8 8 hot] in
  exists segment,
    Regime.detect_regime_changes (fun _ => None) (fun d => d) cfg data
    = Some [segment]
    /\ Regime.regime segment = Regime.normal
    /\ Regime.round_count segment = 8%Z.
Proof.
  intros cfg hot data.
  apply (detect_regime_changes_short_history (fun _ => None) (fun d => d) cfg data).
  - reflexivity.
  - vm_compute. discriminate.
  - vm_compute. split; [discriminate | reflexivity].
Defined.

(** X21: the [RegimeInfo] of [get_current_regime] is always built: for no
    rounds at all it is NORMAL with every figure 0, for any configuration;
    otherwise it carries the label of [detect_regime], the number of rounds,
    the mean volatility, and the ids of the first and the last round as
    float64 values, which are the ids themselves up to a magnitude of 2^53. *)
Theorem current_regime_info_spec
  (std : list (option Q) -> option Q)
  (cfg : Regime.RegimeConfig) (data : list Regime.Round) :
  Regime.current_regime_info std cfg []
  = Some (Regime.mkInfo Regime.normal 0 0 0 (Some 0) (Some 0) (Some 0) (Some 0))
  /\ forall first rest,
       data = first :: rest ->
       exists info,
         Regime.current_regime_info std cfg data = Some info
         /\ Regime.regime info = Regime.detect_regime cfg (map Regime.cells data)
         /\ Regime.round_count info = Z.of_nat (List.length data)
         /\ Regime.start_round info = Py.float64_of_int (Regime.id first)
         /\ Regime.end_round info
            = Py.float64_of_int (Regime.id (last rest first))
         /\ ((Z.abs (Regime.id first) <= 2 ^ 53)%Z ->
             Regime.start_round info = Regime.id first)
         /\ ((Z.abs (Regime.id (last rest first)) <= 2 ^ 53)%Z ->
             Regime.end_round info = Regime.id (last rest first))
         /\ Regime.avg_volatility info
            = Regime.mean (map Regime.volatility (map Regime.cells data)).
Proof.
  split.
  - unfold Regime.current_regime_info. cbn [List.length map].
    rewrite detect_regime_empty. reflexivity.
  - intros first rest ->. unfold Regime.current_regime_info.
    assert (Hpos : (0 <? Z.of_nat (List.length (first :: rest)))%Z = true)
      by (apply Z.ltb_lt; cbn [List.length]; lia).
    rewrite Hpos.
    assert (H0 : Py.iloc (first :: rest) 0 = Some first).
    { unfold Py.iloc. change (0 <? 0)%Z with false. cbv iota.
      assert (E : (0 <? 0)%Z || (Z.of_nat (List.length (first :: rest)) <=? 0)%Z
                  = false)
        by (apply orb_false_iff; split; [reflexivity | apply Z.leb_gt;
                                                       cbn [List.length]; lia]).
      rewrite E. reflexivity. }
    assert (H1 : Py.iloc (first :: rest) (-1) = Some (last rest first)).
    { unfold Py.iloc. change (-1 <? 0)%Z with true. cbv iota.
      assert (E : (-1 + Z.of_nat (List.length (first :: rest)) <? 0)%Z
                  || (Z.of_nat (List.length (first :: rest))
                      <=? -1 + Z.of_nat (List.length (first :: rest)))%Z = false)
        by (apply orb_false_iff; split; [apply Z.ltb_ge | apply Z.leb_gt];
            cbn [List.length]; lia).
      rewrite E.
      replace (Z.to_nat (-1 + Z.of_nat (List.length (first :: rest))))
        with (List.length rest) by (cbn [List.length]; lia).
      rewrite <- (last_cons_default rest first first).
      apply nth_error_last. }
    rewrite H0, H1. eexists. split; [reflexivity|].
    cbn [Regime.regime Regime.round_count Regime.start_round Regime.end_round
         Regime.avg_volatility].
    split; [reflexivity|]. split; [reflexivity|]. split; [reflexivity|].
    split; [reflexivity|].
    split; [intros H; apply float64_of_int_small; exact H|].
    split; [intros H; apply float64_of_int_small; exact H | reflexivity].
Qed.

(** Above 2^53 float64 keeps every second integer, then every fourth, and
    rounds halves to the even neighbour. *)
Example float64_of_int_demo :
  map Py.float64_of_int
      [9007199254740992; 9007199254740993; 9007199254740994;
       9007199254740995; -9007199254740993; 18014398509481987]%Z
  = [9007199254740992; 9007199254740992; 9007199254740994;
     9007199254740996; -9007199254740992; 18014398509481988]%Z.
Proof. vm_compute. reflexivity. Qed.

(** ** StrategySimulator: drawdown and predictions *)

Section DrawdownFacts.
Import Simulate.

Lemma np_div_fin (a b : Q) : ~ b == 0 -> np_div a b = Fin (a / b).
Proof.
  intros Hb. unfold np_div. destruct (Qeq_bool b 0) eqn:E; [|reflexivity].
  apply Qeq_bool_iff in E. contradiction.
Qed.

Lemma drop_range (p v : Q) :
  0 < v -> v <= p -> 0 <= (p - v) / p /\ (p - v) / p <= 1.
Proof.
  intros Hv Hp. split.
  - apply Qle_shift_div_l; lra.
  - apply Qle_shift_div_r; lra.
Qed.

(** The drop from the peak is 0 exactly when the value reaches the peak. *)
Lemma drop_zero_iff (p v : Q) :
  0 < v -> v <= p -> ((p - v) / p == 0 <-> p <= v).
Proof.
  intros Hv Hp. split; intros H.
  - assert (E : p - v == (p - v) / p * p) by (field; lra).
    rewrite H in E. lra.
  - assert (E : p - v == 0) by lra. rewrite E. field. lra.
Qed.

Lemma drawdown_loop_spec (values : list Q) :
  forall peak m,
    Forall (fun v => 0 < v) values ->
    0 < peak -> 0 <= m -> m <= 1 ->
    exists d,
      drawdown_loop values peak (Fin m) = Fin d
      /\ m <= d /\ d <= 1
      /\ (d == 0 <->
          (m == 0 /\ Forall (fun v => peak <= v) values
           /\ StronglySorted Qle values)).
Proof.
  induction values as [|v rest IH]; intros peak m Hall Hp Hm0 Hm1.
  - exists m. split; [reflexivity|]. split; [lra|]. split; [exact Hm1|].
    split; [intros H; repeat split; [exact H | constructor | constructor]|].
    intros (H & _). exact H.
  - inversion Hall as [|? ? Hv Hrest]. subst.
    cbn [drawdown_loop].
    set (peak' := if Py.ltb peak v then v else peak).
    assert (Hpk : peak <= peak' /\ v <= peak' /\ (peak <= v -> peak' <= v)).
    { unfold peak'. destruct (Py.ltb peak v) eqn:E.
      - apply ltb_lt in E. repeat split; lra.
      - apply ltb_ge in E. repeat split; lra. }
    destruct Hpk as (Hpp & Hvp & Hpv).
    rewrite np_div_fin by lra.
    destruct (drop_range peak' v Hv Hvp) as [Hd0 Hd1].
    pose proof (drop_zero_iff peak' v Hv Hvp) as Hdz.
    set (dd := (peak' - v) / peak') in *.
    assert (Hmax : exists m', np_max (Fin m) (Fin dd) = Fin m'
                              /\ m <= m' /\ dd <= m' /\ m' <= 1
                              /\ (m' == 0 <-> (m == 0 /\ dd == 0))).
    { unfold np_max, np_gtb. destruct (Py.ltb m dd) eqn:E.
      - apply ltb_lt in E. eexists. split; [reflexivity|].
        repeat split; try lra; intros; lra.
      - apply ltb_ge in E. eexists. split; [reflexivity|].
        repeat split; try lra; intros; lra. }
    destruct Hmax as (m' & -> & Hmm & Hdm & Hm1' & Hmz).
    destruct (IH peak' m' Hrest) as (d & Hrun & Hmd & Hd & Hzero); try lra.
    exists d. split; [exact Hrun|]. split; [lra|]. split; [exact Hd|].
    rewrite Hzero, Hmz, Hdz. split.
    + intros ((Hm & Hle) & Hall' & Hs).
      assert (Hvv : peak' <= v) by exact Hle.
      split; [exact Hm|]. split.
      * constructor; [lra|]. apply Forall_forall. intros w Hw.
        rewrite Forall_forall in Hall'. specialize (Hall' w Hw). lra.
      * constructor; [exact Hs|]. apply Forall_forall. intros w Hw.
        rewrite Forall_forall in Hall'. specialize (Hall' w Hw). lra.
    + intros (Hm & Hall' & Hs).
      inversion Hall' as [|? ? Hpv' Hrest']. subst.
      inversion Hs as [|? ? Hs' Hvrest]. subst.
      split; [split; [exact Hm | exact (Hpv Hpv')]|].
      split; [|exact Hs'].
      apply Forall_forall. intros w Hw.
      rewrite Forall_forall in Hrest', Hvrest.
      specialize (Hrest' w Hw). specialize (Hvrest w Hw).
      unfold peak'. destruct (Py.ltb peak v); assumption.
Qed.

End DrawdownFacts.

(** X22: [_calculate_max_drawdown] raises on the empty curve.  On a
    non-empty equity curve of positive values it returns a finite number
    [d] with [0 <= d <= 1], and [d] is 0 exactly when the curve never
    falls, that is when every value is at least every earlier one. *)
Theorem calculate_max_drawdown_spec (equity_curve : list Q) :
  equity_curve <> [] ->
  Forall (fun v => 0 < v) equity_curve ->
  Simulate.calculate_max_drawdown [] = None
  /\ exists d,
       Simulate.calculate_max_drawdown equity_curve = Some (Simulate.Fin d)
       /\ 0 <= d /\ d <= 1
       /\ (d == 0 <-> StronglySorted Qle equity_curve).
Proof.
  intros Hne Hall. split; [reflexivity|].
  destruct equity_curve as [|first rest]; [contradiction|].
  unfold Simulate.calculate_max_drawdown.
  assert (Hf : 0 < first) by (inversion Hall; assumption).
  destruct (drawdown_loop_spec (first :: rest) first 0 Hall Hf)
    as (d & Hrun & Hmd & Hd & Hzero); try lra.
  exists d. split; [rewrite Hrun; reflexivity|]. split; [exact Hmd|].
  split; [exact Hd|]. rewrite Hzero. split.
  - intros (_ & _ & Hs). exact Hs.
  - intros Hs. split; [reflexivity|]. split; [|exact Hs].
    inversion Hs as [|? ? _ Hrest]. subst.
    constructor; [lra|].
    apply Forall_forall. intros w Hw.
    rewrite Forall_forall in Hrest. exact (Hrest w Hw).
Qed.

Lemma calculate_max_drawdown_spec_witness :
  Simulate.calculate_max_drawdown [] = None
  /\ exists d,
       Simulate.calculate_max_drawdown [1000; 1100; 990; 1200]
       = Some (Simulate.Fin d)
       /\ 0 <= d /\ d <= 1
       /\ (d == 0 <-> StronglySorted Qle [1000; 1100; 990; 1200]).
Proof.
  apply (calculate_max_drawdown_spec [1000; 1100; 990; 1200]).
  - discriminate.
  - repeat constructor.
Defined.

(** The curve 1000, 1100, 990, 1200 has a maximum drawdown of 10 percent;
    a curve that touches 0 at its start yields no finite number. *)
Example calculate_max_drawdown_demo :
  (exists d, Simulate.calculate_max_drawdown [1000; 1100; 990; 1200]
             = Some (Simulate.Fin d) /\ d == 0.1)
  /\ Simulate.calculate_max_drawdown [0; -5] = Some Simulate.PInf.
Proof. split; [eexists; split; reflexivity | reflexivity]. Qed.

(** X23: [_get_prediction] caps the 5-second probability at 0.8; its
    10-second probability is always the 5-second one plus 0.1 (the cap at
    0.9 never binds); and for a multiplier of at least 1 and a non-negative
    time the 5-second probability is at least 0.1. *)
Theorem get_prediction_spec (has_model : bool) (x t : Q) :
  let p := Simulate.get_prediction has_model x t in
  fst p <= 0.8
  /\ snd p == fst p + 0.1
  /\ (1 <= x -> 0 <= t -> 0.1 <= fst p).
Proof.
  unfold Simulate.get_prediction. destruct has_model; cbn [negb fst snd].
  - set (raw := 0.1 + (x - 1) * 0.1 + t / 60 * 0.2).
    assert (H5 : Py.min 0.8 raw <= 0.8) by apply min_le_l.
    split; [exact H5|]. split.
    + unfold Py.min at 1.
      destruct (Py.ltb (Py.min 0.8 raw + 0.1) 0.9) eqn:E; [reflexivity|].
      apply ltb_ge in E. lra.
    + intros Hx Ht.
      assert (Hq : 0 <= t / 60) by (apply Qle_shift_div_l; lra).
      unfold Py.min. destruct (Py.ltb raw 0.8); unfold raw; [nra | lra].
  - split; [vm_compute; discriminate|]. split; [reflexivity|].
    intros _ _. vm_compute. discriminate.
Qed.

(** ** StrategySimulator: the naive strategy *)

Section NaiveFacts.
Import Simulate.

Lemma update_balance_some
      (self : Bankroll.BankrollManager) (bet_amount result : Q) :
  ~ Bankroll.initial_balance self == 0 ->
  exists info,
    Bankroll.update_balance self bet_amount result
    = (Bankroll.with_state self
         (Bankroll.update_state (Bankroll.state self) result), Some info)
    /\ Bankroll.new_balance info
       = Bankroll.balance (Bankroll.state self) + result.
Proof.
  intros Hnz. unfold Bankroll.update_balance.
  assert (Hroi : exists roi_v,
             (if Py.ltb 0 (Bankroll.balance (Bankroll.state self))
              then match Py.div result (Bankroll.balance (Bankroll.state self)) with
                   | Some r => Some (r * 100)
                   | None => None
                   end
              else Some 0) = Some roi_v).
  { destruct (Py.ltb 0 (Bankroll.balance (Bankroll.state self))) eqn:E.
    - apply ltb_lt in E. rewrite div_some by lra. eauto.
    - eauto. }
  destruct Hroi as (roi_v & ->).
  rewrite (div_some _ _ Hnz). rewrite update_state_total_bets.
  destruct (0 <? Bankroll.total_bets (Bankroll.state self) + 1)%Z eqn:Hpos.
  - apply Z.ltb_lt in Hpos. rewrite inject_Z_div_some by lia.
    eexists. split; reflexivity.
  - eexists. split; reflexivity.
Qed.


End NaiveFacts.



(** Two played rounds from 1000: a win at 2x adds the stake of 100, the loss
    that follows takes a tenth of 1100. *)
Example simulate_naive_strategy_demo :
  exists curve,
    Simulate.simulate_naive_strategy
      (fun _ curve _ _ => curve) None 1000
      [Simulate.mkRoundRow 1 (Some 2.5); Simulate.mkRoundRow 2 None;
       Simulate.mkRoundRow 3 (Some 1.2)] 2
    = Some curve
    /\ Forall2 Qeq curve [1000; 1100; 990].
Proof. eexists. split; [reflexivity|]. repeat constructor. Qed.

(** ** BankrollManager and EVEngine: how operations compose *)

(** X25: for a manager that has only seen [update_balance] calls since its
    creation (no reset), the cumulative ROI reported by [update_balance] and
    the one reported by [get_status] right after it are the same number, and
    neither call raises when the initial balance is not 0. *)
Theorem total_roi_consistent
  (initial kelly max_loss_pct cap_pct : Q) (calls : list (Q * Q))
  (bet_amount result : Q) :
  ~ initial == 0 ->
  let self := Bankroll.run_updates
                (Bankroll.init initial kelly max_loss_pct cap_pct) calls in
  exists info status,
    snd (Bankroll.update_balance self bet_amount result) = Some info
    /\ Bankroll.get_status (fst (Bankroll.update_balance self bet_amount result))
       = Some status
    /\ Bankroll.total_roi info = Bankroll.status_total_roi status
    /\ Bankroll.new_balance info = Bankroll.status_balance status.
Proof.
  intros Hnz self.
  assert (Hinit : Bankroll.initial_balance self = initial
                  /\ Bankroll.st_initial_balance (Bankroll.state self) = initial).
  { assert (G : forall m0,
               Bankroll.initial_balance m0 = initial ->
               Bankroll.st_initial_balance (Bankroll.state m0) = initial ->
               Bankroll.initial_balance (Bankroll.run_updates m0 calls) = initial
               /\ Bankroll.st_initial_balance
                    (Bankroll.state (Bankroll.run_updates m0 calls)) = initial).
    { induction calls as [|[b r] rest IH]; intros m0 H1 H2.
      - split; assumption.
      - cbn [Bankroll.run_updates]. apply IH; assumption. }
    unfold self. apply G; reflexivity. }
  destruct Hinit as [Hi Hsi].
  assert (Hnz' : ~ Bankroll.initial_balance self == 0) by (rewrite Hi; exact Hnz).
  destruct (update_balance_some self bet_amount result Hnz') as (info & Hup & Hnew).
  rewrite Hup. cbn [fst snd].
  unfold Bankroll.get_status.
  cbn [Bankroll.state Bankroll.with_state Bankroll.update_state
       Bankroll.balance Bankroll.st_initial_balance].
  rewrite Hsi. rewrite (div_some _ _ Hnz).
  match goal with
  | |- context [Bankroll.guarded_pct (Py.ltb 0 ?b) ?a ?b] =>
      destruct (guarded_pct_positive a b) as (dl & -> & _)
  end.
  match goal with
  | |- context [Bankroll.apply_daily_loss_cap ?m] =>
      destruct (apply_daily_loss_cap_total m) as (cb & ->)
  end.
  match goal with
  | |- context [Bankroll.guarded_pct (0 <? ?n)%Z (inject_Z ?a) (inject_Z ?n)] =>
      destruct (guarded_pct_count a n) as (wr & ->)
  end.
  match goal with
  | |- context [Bankroll.guarded_pct (Py.ltb 0 ?b) ?a ?b] =>
      destruct (guarded_pct_positive a b) as (dd & -> & _)
  end.
  exists info. eexists. split; [reflexivity|]. split; [reflexivity|].
  cbn [Bankroll.status_total_roi Bankroll.status_balance].
  split; [|exact Hnew].
  unfold Bankroll.update_balance in Hup.
  revert Hup. rewrite Hi.
  destruct (if Py.ltb 0 (Bankroll.balance (Bankroll.state self))
            then match Py.div result (Bankroll.balance (Bankroll.state self)) with
                 | Some r => Some (r * 100)
                 | None => None
                 end
            else Some 0); [|intros H; discriminate H].
  rewrite (div_some _ _ Hnz).
  match goal with
  | |- context [if ?c then _ else Some 0] => destruct c
  end.
  - match goal with
    | |- context [Py.div ?a ?b] => destruct (Py.div a b)
    end; intros H; inversion H; reflexivity.
  - intros H; inversion H; reflexivity.
Qed.

Lemma total_roi_consistent_witness :
  let self := Bankroll.run_updates (Bankroll.init 1000 0.5 20 5) [(100, -100)] in
  exists info status,
    snd (Bankroll.update_balance self 90 45) = Some info
    /\ Bankroll.get_status (fst (Bankroll.update_balance self 90 45)) = Some status
    /\ Bankroll.total_roi info = Bankroll.status_total_roi status
    /\ Bankroll.new_balance info = Bankroll.status_balance status.
Proof.
  apply (total_roi_consistent 1000 0.5 20 5 [(100, -100)] 90 45).
  vm_compute. discriminate.
Defined.
